(** * ToRT kernel (os.c / os.h / uc.c / uc.h): scheduler, events, resources, timers

    A shallow embedding of the kernel services of os.c.  The kernel globals
    (Tasks, NrTasks, Timers, CurrentTask, CurrentTaskIndex,
    ResourcesOccupied) together with the two hardware items the services
    touch (the Timer1 counter written by Uc_ForceSchedule and the global
    interrupt flag saved and restored by the critical-section macros) form
    one record that every service takes and returns.  An array access out of
    bounds is undefined in C; a service that performs one returns [None]. *)

From Stdlib Require Import ZArith Lia Bool.
From stdpp Require Import base tactics option list.

Local Open Scope Z_scope.

(** ** Machine integers *)

(** A value stored into a [uint8_t] object keeps its low eight bits. *)
Definition wrap8 (z : Z) : Z := z mod 256.

Definition is_u8 (z : Z) : Prop := 0 <= z < 256.

(** ** os.h: descriptors *)

(** enum { TASK_STATE_READY, TASK_STATE_RUNNING, TASK_STATE_WAITING } *)
Inductive TaskState : Set :=
  | TASK_STATE_READY
  | TASK_STATE_RUNNING
  | TASK_STATE_WAITING.

#[global] Instance TaskState_eq_dec : EqDecision TaskState.
Proof. solve_decision. Defined.

(** typedef struct { ... } TaskDescriptor.  [Stack] is the address of the
    saved stack pointer; the kernel services never read or write it. *)
Record TaskDescriptor : Set := mkTask {
  Stack : Z;
  State : TaskState;
  Events : Z;
  WaitForEvents : Z;
  RequiredResources : Z;
  Priority : Z
}.

Definition set_State (s : TaskState) (t : TaskDescriptor) : TaskDescriptor :=
  mkTask (Stack t) s (Events t) (WaitForEvents t) (RequiredResources t) (Priority t).

Definition set_Events (e : Z) (t : TaskDescriptor) : TaskDescriptor :=
  mkTask (Stack t) (State t) e (WaitForEvents t) (RequiredResources t) (Priority t).

Definition set_WaitForEvents (w : Z) (t : TaskDescriptor) : TaskDescriptor :=
  mkTask (Stack t) (State t) (Events t) w (RequiredResources t) (Priority t).

(** typedef struct { ... } TimerDescriptor *)
Record TimerDescriptor : Set := mkTimer {
  Value : Z;
  TaskID : nat;
  Event : Z
}.

Definition set_Value (v : Z) (t : TimerDescriptor) : TimerDescriptor :=
  mkTimer v (TaskID t) (Event t).

(** What the pointer [CurrentTask] designates: the descriptor [Main] of the
    boot context, or a slot of the task table. *)
Inductive TaskRef : Set :=
  | MainContext
  | TaskSlot (i : nat).

(** ** Kernel globals and the hardware they touch *)

Record Kernel : Type := mkKernel {
  Tasks : list TaskDescriptor;
  NrTasks : nat;
  Timers : list TimerDescriptor;
  CurrentTask : TaskRef;
  CurrentTaskIndex : nat;
  ResourcesOccupied : Z;
  TCNT1H : Z;
  TCNT1L : Z;
  SREG_I : bool
}.

Definition with_Tasks (ts : list TaskDescriptor) (k : Kernel) : Kernel :=
  mkKernel ts (NrTasks k) (Timers k) (CurrentTask k) (CurrentTaskIndex k)
           (ResourcesOccupied k) (TCNT1H k) (TCNT1L k) (SREG_I k).

Definition with_Timers (tm : list TimerDescriptor) (k : Kernel) : Kernel :=
  mkKernel (Tasks k) (NrTasks k) tm (CurrentTask k) (CurrentTaskIndex k)
           (ResourcesOccupied k) (TCNT1H k) (TCNT1L k) (SREG_I k).

Definition with_Current (i : nat) (k : Kernel) : Kernel :=
  mkKernel (Tasks k) (NrTasks k) (Timers k) (TaskSlot i) i
           (ResourcesOccupied k) (TCNT1H k) (TCNT1L k) (SREG_I k).

Definition with_ResourcesOccupied (r : Z) (k : Kernel) : Kernel :=
  mkKernel (Tasks k) (NrTasks k) (Timers k) (CurrentTask k) (CurrentTaskIndex k)
           r (TCNT1H k) (TCNT1L k) (SREG_I k).

Definition with_SREG_I (b : bool) (k : Kernel) : Kernel :=
  mkKernel (Tasks k) (NrTasks k) (Timers k) (CurrentTask k) (CurrentTaskIndex k)
           (ResourcesOccupied k) (TCNT1H k) (TCNT1L k) b.

(** ** uc.h / uc.c: the hardware interface the kernel consumes *)

(** Uc_ForceSchedule: TCNT1H = 0xFF; TCNT1L = 0xFF; *)
Definition Uc_ForceSchedule (k : Kernel) : Kernel :=
  mkKernel (Tasks k) (NrTasks k) (Timers k) (CurrentTask k) (CurrentTaskIndex k)
           (ResourcesOccupied k) 255 255 (SREG_I k).

(** Uc_EnterCritical: in tmp, SREG; cli; push tmp.  The pushed flag is the
    second component. *)
Definition Uc_EnterCritical (k : Kernel) : Kernel * bool :=
  (with_SREG_I false k, SREG_I k).

(** Uc_ExitCritical: pop tmp; out SREG, tmp. *)
Definition Uc_ExitCritical (saved : bool) (k : Kernel) : Kernel :=
  with_SREG_I saved k.

(** The forced-reschedule signal is up when Timer1 is one count from
    overflow. *)
Definition force_raised (k : Kernel) : Prop :=
  TCNT1H k = 255 /\ TCNT1L k = 255.

(** A statement [Tasks[i].field = v]: undefined when [i] is out of bounds. *)
Definition write_task (f : TaskDescriptor -> TaskDescriptor) (i : nat)
    (k : Kernel) : option Kernel :=
  _ ← Tasks k !! i; Some (with_Tasks (alter f i (Tasks k)) k).

Definition write_timer (f : TimerDescriptor -> TimerDescriptor) (i : nat)
    (k : Kernel) : option Kernel :=
  _ ← Timers k !! i; Some (with_Timers (alter f i (Timers k)) k).

(** ** os.c: Os_Scheduler *)

(** The test of the scan: READY and none of the required resources held. *)
Definition candidate (occ : Z) (t : TaskDescriptor) : Prop :=
  State t = TASK_STATE_READY /\ Z.land (RequiredResources t) occ = 0.

#[global] Instance candidate_dec occ t : Decision (candidate occ t).
Proof. unfold candidate. apply _. Defined.

(** The [for] loop of Os_Scheduler, with [n] iterations left to run. *)
Fixpoint Os_Scheduler_scan (n : nat) (tasks : list TaskDescriptor) (occ : Z)
    (TaskIndex NextTaskIndex : nat) (HighestPriority : Z) : option nat :=
  match n with
  | O => Some NextTaskIndex
  | S n' =>
      t ← tasks !! TaskIndex;
      if decide (candidate occ t) then
        if decide (Priority t > HighestPriority) then
          Os_Scheduler_scan n' tasks occ (S TaskIndex) TaskIndex (Priority t)
        else
          Os_Scheduler_scan n' tasks occ (S TaskIndex) NextTaskIndex HighestPriority
      else
        Os_Scheduler_scan n' tasks occ (S TaskIndex) NextTaskIndex HighestPriority
  end.

(** The value of NextTaskIndex when the loop is left. *)
Definition Os_Scheduler_pick (k : Kernel) : option nat :=
  Os_Scheduler_scan (NrTasks k) (Tasks k) (ResourcesOccupied k) 0%nat 0%nat 0.

Definition Os_Scheduler (k : Kernel) : option Kernel :=
  NextTaskIndex ← Os_Scheduler_pick k;
  cur ← Tasks k !! CurrentTaskIndex k;
  match State cur with
  | TASK_STATE_READY | TASK_STATE_WAITING =>
      k1 ← write_task (set_State TASK_STATE_RUNNING) NextTaskIndex k;
      Some (with_Current NextTaskIndex k1)
  | TASK_STATE_RUNNING =>
      next ← Tasks k !! NextTaskIndex;
      if decide (Priority next > Priority cur) then
        k1 ← write_task (set_State TASK_STATE_READY) (CurrentTaskIndex k) k;
        k2 ← write_task (set_State TASK_STATE_RUNNING) NextTaskIndex k1;
        Some (with_Current NextTaskIndex k2)
      else Some k
  end.

(** ** os.c: resources *)

Definition Os_GetResources (ResID : Z) (k : Kernel) : option Kernel :=
  let '(k, saved) := Uc_EnterCritical k in
  let k := with_ResourcesOccupied (wrap8 (Z.lor (ResourcesOccupied k) ResID)) k in
  Some (Uc_ExitCritical saved k).

Definition Os_ReleaseResources (ResID : Z) (k : Kernel) : option Kernel :=
  let '(k, saved) := Uc_EnterCritical k in
  let k := with_ResourcesOccupied
             (wrap8 (Z.land (ResourcesOccupied k) (Z.lnot ResID))) k in
  let k := Uc_ForceSchedule k in
  Some (Uc_ExitCritical saved k).

(** ** os.c: events *)

Definition Os_SetEvent (TaskID : nat) (Mask : Z) (k : Kernel) : option Kernel :=
  let '(k, saved) := Uc_EnterCritical k in
  k ← write_task (fun t => set_Events (wrap8 (Z.lor (Events t) Mask)) t) TaskID k;
  t ← Tasks k !! TaskID;
  k ← (if decide (Z.land (WaitForEvents t) (Events t) <> 0) then
         k ← write_task (set_State TASK_STATE_READY) TaskID k;
         t ← Tasks k !! TaskID;
         cur ← Tasks k !! CurrentTaskIndex k;
         if decide (Priority t > Priority cur) then Some (Uc_ForceSchedule k)
         else Some k
       else Some k);
  Some (Uc_ExitCritical saved k).

Definition Os_ClearEvents (Mask : Z) (k : Kernel) : option Kernel :=
  let '(k, saved) := Uc_EnterCritical k in
  k ← write_task (fun t => set_Events (wrap8 (Z.land (Events t) (Z.lnot Mask))) t)
        (CurrentTaskIndex k) k;
  Some (Uc_ExitCritical saved k).

Definition Os_GetEvents (k : Kernel) : option (Kernel * Z) :=
  let '(k, saved) := Uc_EnterCritical k in
  t ← Tasks k !! CurrentTaskIndex k;
  let events := Events t in
  Some (Uc_ExitCritical saved k, events).

(** How a call of Os_WaitEvents goes on once the critical section is left:
    it returns, or it sits in the [for (;;)] loop that polls
    [Tasks[CurrentTaskIndex].Events & Mask]. *)
Inductive WaitOutcome : Set :=
  | WaitReturns
  | WaitPolls (Mask : Z).

Definition Os_WaitEvents (Mask : Z) (k : Kernel) : option (Kernel * WaitOutcome) :=
  let '(k, saved) := Uc_EnterCritical k in
  k ← write_task (fun t => set_WaitForEvents (wrap8 (Z.lor (WaitForEvents t) Mask)) t)
        (CurrentTaskIndex k) k;
  t ← Tasks k !! CurrentTaskIndex k;
  if decide (Z.land (Events t) Mask = 0) then
    k ← write_task (set_State TASK_STATE_WAITING) (CurrentTaskIndex k) k;
    let k := Uc_ForceSchedule k in
    Some (Uc_ExitCritical saved k, WaitPolls Mask)
  else
    Some (Uc_ExitCritical saved k, WaitReturns).

(** The exit test of the polling loop. *)
Definition Os_WaitEvents_poll (Mask : Z) (k : Kernel) : option bool :=
  t ← Tasks k !! CurrentTaskIndex k;
  Some (bool_decide (Z.land (Events t) Mask <> 0)).

(** ** os.c: timers *)

Definition Os_SetTimer (TimerID : nat) (Val : Z) (k : Kernel) : option Kernel :=
  let '(k, saved) := Uc_EnterCritical k in
  k ← write_timer (set_Value Val) TimerID k;
  Some (Uc_ExitCritical saved k).

Definition Os_TickTimer (TimerID : nat) (k : Kernel) : option Kernel :=
  let '(k, saved) := Uc_EnterCritical k in
  tm ← Timers k !! TimerID;
  k ← (if decide (Value tm > 0) then
         k ← write_timer (fun t => set_Value (wrap8 (Value t - 1)) t) TimerID k;
         tm ← Timers k !! TimerID;
         if decide (Value tm = 0) then Os_SetEvent (TaskID tm) (Event tm) k
         else Some k
       else Some k);
  Some (Uc_ExitCritical saved k).

(** ** Start-up and sequences of kernel operations *)

(** The kernel as Os_StartOS leaves it: the static initialisers of os.c
    ([CurrentTask = &Main], [CurrentTaskIndex = 0], [ResourcesOccupied = 0]),
    the tables wired in, Timer1 as Uc_HardwareInit loads it, interrupts on. *)
Definition Os_StartOS (ApTasks : list TaskDescriptor) (NrApTasks : nat)
    (ApTimers : list TimerDescriptor) : Kernel :=
  mkKernel ApTasks NrApTasks ApTimers MainContext 0%nat 0 60 176 true.

(** The start configuration of the task table: every task READY with no
    event set. *)
Definition initial_tasks (tasks : list TaskDescriptor) : Prop :=
  Forall (fun t => State t = TASK_STATE_READY /\ Events t = 0) tasks.

Inductive KernelOp : Set :=
  | OpSchedule
  | OpSetEvent (TaskID : nat) (Mask : Z)
  | OpClearEvents (Mask : Z)
  | OpGetEvents
  | OpWaitEvents (Mask : Z)
  | OpGetResources (ResID : Z)
  | OpReleaseResources (ResID : Z)
  | OpSetTimer (TimerID : nat) (Val : Z)
  | OpTickTimer (TimerID : nat).

#[global] Instance KernelOp_eq_dec : EqDecision KernelOp.
Proof. solve_decision. Defined.

Definition exec (op : KernelOp) (k : Kernel) : option Kernel :=
  match op with
  | OpSchedule => Os_Scheduler k
  | OpSetEvent t m => Os_SetEvent t m k
  | OpClearEvents m => Os_ClearEvents m k
  | OpGetEvents => fst <$> Os_GetEvents k
  | OpWaitEvents m => fst <$> Os_WaitEvents m k
  | OpGetResources m => Os_GetResources m k
  | OpReleaseResources m => Os_ReleaseResources m k
  | OpSetTimer t v => Os_SetTimer t v k
  | OpTickTimer t => Os_TickTimer t k
  end.

Fixpoint run (ops : list KernelOp) (k : Kernel) : option Kernel :=
  match ops with
  | [] => Some k
  | op :: ops' => k' ← exec op k; run ops' k'
  end.

(** ** Observations on the task table *)

Definition state_of (k : Kernel) (i : nat) : option TaskState :=
  State <$> Tasks k !! i.

Definition events_of (k : Kernel) (i : nat) : option Z :=
  Events <$> Tasks k !! i.

Definition wait_mask_of (k : Kernel) (i : nat) : option Z :=
  WaitForEvents <$> Tasks k !! i.

Definition priority_of (k : Kernel) (i : nat) : option Z :=
  Priority <$> Tasks k !! i.

(** The table and the count handed to Os_StartOS agree, and the current
    index designates a descriptor. *)
Definition well_formed (k : Kernel) : Prop :=
  NrTasks k = length (Tasks k) /\ (CurrentTaskIndex k < length (Tasks k))%nat.

(** What the scan has established once indices below [i] are done. *)
Definition scan_inv (tasks : list TaskDescriptor) (occ : Z)
    (i next : nat) (hp : Z) : Prop :=
  (hp = 0 /\ next = 0%nat /\
   forall j t, (j < i)%nat -> tasks !! j = Some t -> candidate occ t -> Priority t <= 0)
  \/
  (exists t, tasks !! next = Some t /\ candidate occ t /\ Priority t = hp /\ hp > 0 /\
     (forall j t', (j < i)%nat -> tasks !! j = Some t' -> candidate occ t' ->
                   Priority t' <= hp) /\
     (forall j t', (j < next)%nat -> tasks !! j = Some t' -> candidate occ t' ->
                   Priority t' < hp)).

(** The task the scan settles on: the first one of greatest priority among
    the candidates of priority above 0, and task 0 when there is none. *)
Definition picked (tasks : list TaskDescriptor) (occ : Z) (next : nat) : Prop :=
  (next = 0%nat /\
   forall j t, tasks !! j = Some t -> candidate occ t -> Priority t <= 0)
  \/
  (exists t, tasks !! next = Some t /\ candidate occ t /\ Priority t > 0 /\
     (forall j t', tasks !! j = Some t' -> candidate occ t' ->
                   Priority t' <= Priority t) /\
     (forall j t', (j < next)%nat -> tasks !! j = Some t' -> candidate occ t' ->
                   Priority t' < Priority t)).

(** ** The writes of the services, descriptor by descriptor *)

(** Os_SetEvent on the addressed descriptor: OR the mask in, then READY when
    an awaited event is set. *)
Definition deliver (Mask : Z) (t : TaskDescriptor) : TaskDescriptor :=
  let t1 := set_Events (wrap8 (Z.lor (Events t) Mask)) t in
  if decide (Z.land (WaitForEvents t1) (Events t1) <> 0)
  then set_State TASK_STATE_READY t1 else t1.

(** Os_WaitEvents: the update of WaitForEvents. *)
Definition mark_wait (Mask : Z) (t : TaskDescriptor) : TaskDescriptor :=
  set_WaitForEvents (wrap8 (Z.lor (WaitForEvents t) Mask)) t.

(** Os_ClearEvents: the update of Events. *)
Definition clear (Mask : Z) (t : TaskDescriptor) : TaskDescriptor :=
  set_Events (wrap8 (Z.land (Events t) (Z.lnot Mask))) t.

(** Os_TickTimer: the decrement. *)
Definition tick (t : TimerDescriptor) : TimerDescriptor :=
  set_Value (wrap8 (Value t - 1)) t.


(** ** The outcomes of Os_Scheduler *)

(** The current task had left RUNNING: [next] is made RUNNING and becomes
    the current task. *)
Definition dispatch (next : nat) (nx : TaskDescriptor) (k : Kernel) : Kernel :=
  with_Current next
    (with_Tasks (<[next := set_State TASK_STATE_RUNNING nx]> (Tasks k)) k).

(** Preemption: the current task goes back to READY first. *)
Definition preempt (next : nat) (nx cur : TaskDescriptor) (k : Kernel) : Kernel :=
  with_Current next
    (with_Tasks (<[next := set_State TASK_STATE_RUNNING nx]>
                   (<[CurrentTaskIndex k := set_State TASK_STATE_READY cur]> (Tasks k)))
                k).

(** ** Configurations used in the examples *)

(** The scheduling table and the timer table of the demo application (ap.c):
    idle, model, view and control task; one timer owned by the model task. *)
Definition ap_Tasks : list TaskDescriptor :=
  [ mkTask 0 TASK_STATE_READY 0 0 0 0;
    mkTask 0 TASK_STATE_READY 0 0 (Z.lor 32 (Z.lor 64 1)) 3;
    mkTask 0 TASK_STATE_READY 0 0 (Z.lor 64 2) 2;
    mkTask 0 TASK_STATE_READY 0 0 32 1 ].

Definition ap_Timers : list TimerDescriptor := [ mkTimer 0 1%nat 1 ].

Definition ap_boot : Kernel := Os_StartOS ap_Tasks 4 ap_Timers.

(** An idle task and one task of priority 1. *)
Definition two_tasks : list TaskDescriptor :=
  [ mkTask 0 TASK_STATE_READY 0 0 0 0;
    mkTask 0 TASK_STATE_READY 0 0 0 1 ].

(** Task 1 is current, polls in Os_WaitEvents(1) and has just been sent
    event 1: it is READY again before the scheduler ran. *)
Definition woken_current : Kernel :=
  mkKernel [ mkTask 0 TASK_STATE_READY 0 0 0 0;
             mkTask 0 TASK_STATE_READY 1 1 0 1 ]
           2 [] (TaskSlot 1) 1%nat 0 255 255 true.

(** Two tasks that both declare resource 1; the one of higher priority sits
    in slot 0. *)
Definition shared_resource_tasks : list TaskDescriptor :=
  [ mkTask 0 TASK_STATE_READY 0 0 1 2;
    mkTask 0 TASK_STATE_READY 0 0 1 1 ].

(** Task 0 waits for event 1; task 1 runs and holds resource 1. *)
Definition holder_running : Kernel :=
  mkKernel [ mkTask 0 TASK_STATE_WAITING 0 1 1 2;
             mkTask 0 TASK_STATE_RUNNING 0 0 1 1 ]
           2 [] (TaskSlot 1) 1%nat 1 255 255 true.

(** Three tasks of priority 0. *)
Definition three_level0 : list TaskDescriptor :=
  [ mkTask 0 TASK_STATE_READY 0 0 0 0;
    mkTask 0 TASK_STATE_READY 0 0 0 0;
    mkTask 0 TASK_STATE_READY 0 0 0 0 ].

(** Task 0 runs, tasks 1 and 2 are READY. *)
Definition level0_running : Kernel :=
  mkKernel [ mkTask 0 TASK_STATE_RUNNING 0 0 0 0;
             mkTask 0 TASK_STATE_READY 0 0 0 0;
             mkTask 0 TASK_STATE_READY 0 0 0 0 ]
           3 [] (TaskSlot 0) 0%nat 0 60 176 true.

(** Control and view task READY with the same priority 2 above the idle
    task. *)
Definition tied_tasks : Kernel :=
  mkKernel [ mkTask 0 TASK_STATE_RUNNING 0 0 0 0;
             mkTask 0 TASK_STATE_READY 0 0 0 2;
             mkTask 0 TASK_STATE_READY 0 0 0 2 ]
           3 [] (TaskSlot 0) 0%nat 0 60 176 true.

(** ** What the services other than the scheduler write into the task table *)

(** [service_write k op i f]: run on [k], the service call [op] may rewrite
    the descriptor in slot [i], and then by [f]. *)
Inductive service_write (k : Kernel) :
    KernelOp -> nat -> (TaskDescriptor -> TaskDescriptor) -> Prop :=
  | write_SetEvent TaskID Mask :
      service_write k (OpSetEvent TaskID Mask) TaskID (deliver Mask)
  | write_TickTimer TimerID tm :
      Timers k !! TimerID = Some tm ->
      Value tm > 0 ->
      wrap8 (Value tm - 1) = 0 ->
      service_write k (OpTickTimer TimerID) (TaskID tm) (deliver (Event tm))
  | write_ClearEvents Mask :
      service_write k (OpClearEvents Mask) (CurrentTaskIndex k) (clear Mask)
  | write_WaitEvents_returns Mask :
      service_write k (OpWaitEvents Mask) (CurrentTaskIndex k) (mark_wait Mask)
  | write_WaitEvents_polls Mask :
      service_write k (OpWaitEvents Mask) (CurrentTaskIndex k)
                    (set_State TASK_STATE_WAITING ∘ mark_wait Mask).

(** Every RUNNING descriptor is the one CurrentTaskIndex designates. *)
Definition running_is_current (k : Kernel) : Prop :=
  forall i t, Tasks k !! i = Some t -> State t = TASK_STATE_RUNNING ->
              i = CurrentTaskIndex k.


(** [m] is contained in [w] as a set of bits. *)
Definition bits_in (m w : Z) : Prop := Z.land m w = m.

(** A run of the demo application: the model task is dispatched, arms the
    game timer and waits for it; the view task runs until the timer expires
    and the model task preempts it; the model task takes and releases the
    board. *)
Definition ap_trace : list KernelOp :=
  [ OpSchedule; OpSetTimer 0 2; OpWaitEvents 1; OpSchedule;
    OpTickTimer 0; OpTickTimer 0; OpSchedule;
    OpGetResources 64; OpClearEvents 1; OpReleaseResources 64; OpSchedule ].

(** Task 1 runs; it has called Os_WaitEvents(1) with event 1 already set, so
    the call returned at once and left 1 in WaitForEvents. *)
Definition running_with_mask : Kernel :=
  mkKernel [ mkTask 0 TASK_STATE_READY 0 0 0 0;
             mkTask 0 TASK_STATE_RUNNING 1 1 0 1 ]
           2 [] (TaskSlot 1) 1%nat 0 60 176 true.

(** The idle task runs while task 1 waits for event 1. *)
Definition idle_running_waiter : Kernel :=
  mkKernel [ mkTask 0 TASK_STATE_RUNNING 0 0 0 0;
             mkTask 0 TASK_STATE_WAITING 0 1 0 1 ]
           2 [] (TaskSlot 0) 0%nat 0 60 176 true.

(** ** Relations between two states of a table *)

(** The [const] members of a task descriptor agree. *)
Definition same_task_config (t t' : TaskDescriptor) : Prop :=
  RequiredResources t' = RequiredResources t /\ Priority t' = Priority t.

(** The [const] members of a timer descriptor agree. *)
Definition same_timer_config (t t' : TimerDescriptor) : Prop :=
  TaskID t' = TaskID t /\ Event t' = Event t.

(** No descriptor of the table is RUNNING. *)
Definition none_running (k : Kernel) : Prop :=
  forall i t, Tasks k !! i = Some t -> State t <> TASK_STATE_RUNNING.

(** The idle-task convention of the application: slot 0 has priority 0 and
    no priority is negative. *)
Definition idle_convention (k : Kernel) : Prop :=
  (forall t0, Tasks k !! 0%nat = Some t0 -> Priority t0 = 0) /\
  (forall i t, Tasks k !! i = Some t -> 0 <= Priority t).

(** [op] releases no resource of [m]. *)
Definition keeps_resources (m : Z) (op : KernelOp) : Prop :=
  match op with
  | OpReleaseResources m' => Z.land m m' = 0
  | _ => True
  end.

(** The demo application with the control task running while the model and
    the view task wait for their events. *)
Definition ctrl_running : Kernel :=
  mkKernel [ mkTask 0 TASK_STATE_READY 0 0 0 0;
             mkTask 0 TASK_STATE_WAITING 0 3 (Z.lor 32 (Z.lor 64 1)) 3;
             mkTask 0 TASK_STATE_WAITING 0 4 (Z.lor 64 2) 2;
             mkTask 0 TASK_STATE_RUNNING 0 120 32 1 ]
           4 [ mkTimer 0 1%nat 1 ] (TaskSlot 3) 3%nat 0 60 176 true.

(** [CurrentTask] and [CurrentTaskIndex] designate the same descriptor; or
    the boot context is still current, the index is 0 and no task has been
    made RUNNING yet. *)
Definition current_agrees (k : Kernel) : Prop :=
  CurrentTask k = TaskSlot (CurrentTaskIndex k) \/
  (CurrentTask k = MainContext /\ CurrentTaskIndex k = 0%nat /\ none_running k).

(** * uc.c: keys, potentiometer and interrupt service routines *)

(** Port bit numbers of avr/io.h and the macro [_BV]. *)
Definition PD2 : Z := 2.
Definition PD3 : Z := 3.
Definition _BV (bit : Z) : Z := Z.shiftl 1 bit.

Definition BUTTON_ROTATE : Z := PD2.
Definition BUTTON_DROP : Z := PD3.

(** ap.h: task and timer identifiers, events. *)
Definition TASK_ID_IDLE : nat := 0.
Definition TASK_ID_MODEL : nat := 1.
Definition TASK_ID_VIEW : nat := 2.
Definition TASK_ID_CTRL : nat := 3.
Definition TIMER_ID_GAME : nat := 0.
Definition EVENT_TIMER : Z := 1.
Definition EVENT_UPDATE : Z := 2.
Definition EVENT_DRAW : Z := 4.
Definition EVENT_LEFT : Z := 8.
Definition EVENT_RIGHT : Z := 16.
Definition EVENT_ROTATE : Z := 32.
Definition EVENT_DROP : Z := 64.

(** The kernel together with the variables of uc.c: the file-scope
    [CurentADCValue] and [KeyPress], and the [static] locals of the ADC and
    the Timer2 interrupt routines. *)
Record Hal : Type := mkHal {
  kernel : Kernel;
  CurentADCValue : Z;
  LastValue : Z;
  KeyPress : Z;
  KeyState : Z;
  Counter0 : Z;
  Counter1 : Z
}.

Definition with_kernel (k : Kernel) (h : Hal) : Hal :=
  mkHal k (CurentADCValue h) (LastValue h) (KeyPress h) (KeyState h)
        (Counter0 h) (Counter1 h).

Definition with_KeyPress (kp : Z) (h : Hal) : Hal :=
  mkHal (kernel h) (CurentADCValue h) (LastValue h) kp (KeyState h)
        (Counter0 h) (Counter1 h).

Definition with_ADC (cur last : Z) (h : Hal) : Hal :=
  mkHal (kernel h) cur last (KeyPress h) (KeyState h) (Counter0 h) (Counter1 h).

Definition with_keys (kp ks c0 c1 : Z) (h : Hal) : Hal :=
  mkHal (kernel h) (CurentADCValue h) (LastValue h) kp ks c0 c1.

Definition with_TCNT1 (hi lo : Z) (k : Kernel) : Kernel :=
  mkKernel (Tasks k) (NrTasks k) (Timers k) (CurrentTask k) (CurrentTaskIndex k)
           (ResourcesOccupied k) hi lo (SREG_I k).

(** KeyPressed: [Key &= KeyPress; KeyPress ^= Key; return Key;] *)
Definition KeyPressed (Key : Z) (h : Hal) : Hal * Z :=
  let Key := wrap8 (Z.land Key (KeyPress h)) in
  (with_KeyPress (wrap8 (Z.lxor (KeyPress h) Key)) h, Key).

(** Uc_ADCGet *)
Definition Uc_ADCGet (h : Hal) : Z := CurentADCValue h.

(** The key debouncing of the Timer2 routine, on the sample [PIND] of the
    port: two-bit vertical counters, one per key. *)
Definition debounce (PIND : Z) (h : Hal) : Hal :=
  let In := wrap8 (Z.lnot PIND) in
  let In := wrap8 (Z.lxor In (KeyState h)) in
  let C0 := wrap8 (Z.lnot (Z.land (Counter0 h) In)) in
  let C1 := wrap8 (Z.lxor C0 (Z.land (Counter1 h) In)) in
  let In := wrap8 (Z.land In (Z.land C0 C1)) in
  let KS := wrap8 (Z.lxor (KeyState h) In) in
  let KP := wrap8 (Z.lor (KeyPress h) (Z.land KS In)) in
  with_keys KP KS C0 C1 h.

(** The interrupt routines, from the point where the processor has entered
    them (global interrupt flag cleared) to their [reti], which sets the flag
    again.  The registers and the stack that Uc_SaveContext and
    Uc_RestoreContext handle are not part of [Hal]. *)

(** ISR(ADC_vect), with the conversion result [ADCH]. *)
Definition ISR_ADC (ADCH : Z) (h : Hal) : option Hal :=
  let k := with_SREG_I false (kernel h) in
  let Cur := ADCH in
  let h := with_ADC Cur (LastValue h) h in
  h ← (if decide (Cur > LastValue h + 10 \/ Cur < LastValue h - 10) then
         let event := if decide (Cur < LastValue h) then EVENT_RIGHT else EVENT_LEFT in
         let h := with_ADC Cur Cur h in
         k ← Os_SetEvent TASK_ID_CTRL event k;
         Some (with_kernel k h)
       else Some (with_kernel k h));
  Some (with_kernel (with_SREG_I true (kernel h)) h).

(** ISR(TIMER1_OVF_vect): the scheduler tick. *)
Definition ISR_TIMER1_OVF (h : Hal) : option Hal :=
  let k := with_SREG_I false (kernel h) in
  let k := with_TCNT1 60 176 k in
  k ← Os_Scheduler k;
  let '(h, rotate) := KeyPressed (_BV BUTTON_ROTATE) h in
  k ← (if decide (rotate <> 0) then Os_SetEvent TASK_ID_CTRL EVENT_ROTATE k
       else Some k);
  let '(h, drop) := KeyPressed (_BV BUTTON_DROP) h in
  k ← (if decide (drop <> 0) then Os_SetEvent TASK_ID_CTRL EVENT_DROP k
       else Some k);
  Some (with_kernel (with_SREG_I true k) h).

(** ISR(TIMER2_OVF_vect): the application timer tick, with the sample
    [PIND] of the key port. *)
Definition ISR_TIMER2_OVF (PIND : Z) (h : Hal) : option Hal :=
  let k := with_SREG_I false (kernel h) in
  k ← Os_TickTimer TIMER_ID_GAME k;
  let h := debounce PIND h in
  Some (with_kernel (with_SREG_I true k) h).

(** Bit [n] of a key variable. *)
Definition key_bit (z : Z) (n : Z) : bool := Z.testbit z n.

(** The demo application at rest: the idle task runs, the other tasks wait
    for their events, no key is down. *)
Definition ap_idle : Kernel :=
  mkKernel [ mkTask 0 TASK_STATE_RUNNING 0 0 0 0;
             mkTask 0 TASK_STATE_WAITING 0 3 (Z.lor 32 (Z.lor 64 1)) 3;
             mkTask 0 TASK_STATE_WAITING 0 4 (Z.lor 64 2) 2;
             mkTask 0 TASK_STATE_WAITING 0 120 32 1 ]
           4 [ mkTimer 0 1%nat 1 ] (TaskSlot 0) 0%nat 0 60 176 true.

Definition hal_idle : Hal := mkHal ap_idle 128 128 0 0 255 255.

(** The tables are as the routines of uc.c expect them: the kernel is
    well-formed, the control task and the game timer exist, and the owner of
    the game timer is a task of the table. *)
Definition hal_tables (k : Kernel) : Prop :=
  well_formed k /\
  (TASK_ID_CTRL < length (Tasks k))%nat /\
  exists tm, Timers k !! TIMER_ID_GAME = Some tm /\
             (TaskID tm < length (Tasks k))%nat.

(** * ap.c: the board of the game *)

(** ap.h *)
Definition BOARD_ROWS : nat := 16.
Definition TETROMINO_TYPES : Z := 7.
Definition ROW_COMPLETED : Z := 255.
Definition ROW_EMPTY : Z := 0.
Definition SPEED_DEFAULT : Z := 250.
Definition POSITION_X_CENTER : Z := (8 - 4) / 2.
Definition POSITION_Y_TOP : nat := 0.
Definition POSITION_Y_BOTTOM : nat := BOARD_ROWS.

(** uc.c *)
Definition PB0 : Z := 0.
Definition LED_GREEN : Z := PB0.

(** Tetrominoes[TETROMINO_TYPES][TETROMINO_ORIENTATIONS][NR_BYTES_BITMAP] *)
Definition Tetrominoes : list (list (list Z)) :=
  [ [ [0x00; 0x47]; [0x03; 0x22]; [0x00; 0x71]; [0x01; 0x13] ];
    [ [0x00; 0x63]; [0x01; 0x32]; [0x00; 0x63]; [0x01; 0x32] ];
    [ [0x00; 0x17]; [0x02; 0x23]; [0x00; 0x74]; [0x03; 0x11] ];
    [ [0x00; 0x36]; [0x02; 0x31]; [0x00; 0x36]; [0x02; 0x31] ];
    [ [0x00; 0x0F]; [0x11; 0x11]; [0x00; 0x0F]; [0x11; 0x11] ];
    [ [0x00; 0x33]; [0x00; 0x33]; [0x00; 0x33]; [0x00; 0x33] ];
    [ [0x00; 0x27]; [0x02; 0x32]; [0x00; 0x72]; [0x01; 0x31] ] ].

(** Max_Pos_x[TETROMINO_TYPES][TETROMINO_ORIENTATIONS] *)
Definition Max_Pos_x : list (list Z) :=
  [ [5; 6; 5; 6];
    [5; 6; 5; 6];
    [5; 6; 5; 6];
    [5; 6; 5; 6];
    [4; 7; 4; 7];
    [6; 6; 6; 6];
    [5; 6; 5; 6] ].

(** [Tetrominoes[Type][Orientation][i]] *)
Definition bitmap (Typ Orientation i : nat) : option Z :=
  t ← Tetrominoes !! Typ; o ← t !! Orientation; o !! i.

(** [Max_Pos_x[Type][Orientation]] *)
Definition max_pos_x (Typ Orientation : nat) : option Z :=
  t ← Max_Pos_x !! Typ; t !! Orientation.

(** The four lines of a tetromino moved to column [Pos_x], bottom line
    first: [(b1 & 0x0F) << Pos_x], [(b1 >> 4) << Pos_x], [(b0 & 0x0F) << Pos_x],
    [(b0 >> 4) << Pos_x].  The shifts are done on [int]; up to column 11 they
    do not overflow. *)
Definition line_mask (Typ Orientation : nat) (Pos_x : Z) (line : nat) : option Z :=
  match line with
  | 0%nat => b ← bitmap Typ Orientation 1; Some (Z.shiftl (Z.land b 15) Pos_x)
  | 1%nat => b ← bitmap Typ Orientation 1; Some (Z.shiftl (Z.shiftr b 4) Pos_x)
  | 2%nat => b ← bitmap Typ Orientation 0; Some (Z.shiftl (Z.land b 15) Pos_x)
  | _ => b ← bitmap Typ Orientation 0; Some (Z.shiftl (Z.shiftr b 4) Pos_x)
  end.

(** [Board[Pos_y - line] & mask] when the line is on the board
    ([Pos_y > line - 1]), and the initial 0 of the local otherwise. *)
Definition line_overlap (Typ Orientation : nat) (Pos_x : Z) (Pos_y : nat)
    (Board : list Z) (line : nat) : option Z :=
  if decide (line <= Pos_y)%nat then
    r ← Board !! (Pos_y - line)%nat;
    m ← line_mask Typ Orientation Pos_x line;
    Some (wrap8 (Z.land r m))
  else Some 0.

Definition DetectCollision (Typ Orientation : nat) (Pos_x : Z) (Pos_y : nat)
    (Board : list Z) : option Z :=
  Line0 ← line_overlap Typ Orientation Pos_x Pos_y Board 0;
  Line1 ← line_overlap Typ Orientation Pos_x Pos_y Board 1;
  Line2 ← line_overlap Typ Orientation Pos_x Pos_y Board 2;
  Line3 ← line_overlap Typ Orientation Pos_x Pos_y Board 3;
  if decide (Line0 <> 0 \/ Line1 <> 0 \/ Line2 <> 0 \/ Line3 <> 0) then Some 1
  else
    mx ← max_pos_x Typ Orientation;
    if decide (Pos_x > mx \/ (POSITION_Y_BOTTOM - 1 < Pos_y)%nat) then Some 1
    else Some 0.

(** One statement [Board[Pos_y - line] op= mask] of AddTetromino or
    RemoveTetromino, done when the line is on the board. *)
Definition update_line (op : Z -> Z -> Z) (Typ Orientation : nat) (Pos_x : Z)
    (Pos_y : nat) (line : nat) (Board : list Z) : option (list Z) :=
  if decide (line <= Pos_y)%nat then
    r ← Board !! (Pos_y - line)%nat;
    m ← line_mask Typ Orientation Pos_x line;
    Some (<[(Pos_y - line)%nat := wrap8 (op r m)]> Board)
  else Some Board.

Definition AddTetromino (Typ Orientation : nat) (Pos_x : Z) (Pos_y : nat)
    (Board : list Z) : option (list Z) :=
  b ← update_line Z.lor Typ Orientation Pos_x Pos_y 0 Board;
  b ← update_line Z.lor Typ Orientation Pos_x Pos_y 1 b;
  b ← update_line Z.lor Typ Orientation Pos_x Pos_y 2 b;
  update_line Z.lor Typ Orientation Pos_x Pos_y 3 b.

Definition RemoveTetromino (Typ Orientation : nat) (Pos_x : Z) (Pos_y : nat)
    (Board : list Z) : option (list Z) :=
  let clear_bits := fun r m => Z.land r (Z.lnot m) in
  b ← update_line clear_bits Typ Orientation Pos_x Pos_y 0 Board;
  b ← update_line clear_bits Typ Orientation Pos_x Pos_y 1 b;
  b ← update_line clear_bits Typ Orientation Pos_x Pos_y 2 b;
  update_line clear_bits Typ Orientation Pos_x Pos_y 3 b.

(** The model task's data touched by CheckCompletedRows: the board, the
    score, the LED port, and the scores printed on the UART (one entry per
    line "Score: n"). *)
Record Game : Type := mkGame {
  Board : list Z;
  Score : Z;
  PORTB : Z;
  printed : list Z
}.

(** The inner loop of CheckCompletedRows, entered with [RemainingRows]:
    [Board[R] = Board[R - 1]; if (Board[R - 1] == ROW_EMPTY) break;] *)
Fixpoint move_rows_down (RemainingRows : nat) (b : list Z) : option (list Z) :=
  match RemainingRows with
  | O => Some b
  | S r =>
      above ← b !! r;
      _ ← b !! S r;
      let b := <[S r := above]> b in
      if decide (above = ROW_EMPTY) then Some b else move_rows_down r b
  end.

(** The body of the outer loop for one [Row]. *)
Definition check_row (Row : nat) (g : Game) : option Game :=
  r ← Board g !! Row;
  if decide (r = ROW_COMPLETED) then
    let score := wrap8 (Score g + 1) in
    let portb := wrap8 (Z.lor (PORTB g) (_BV LED_GREEN)) in
    let out := printed g ++ [score] in
    b ← move_rows_down Row (Board g);
    _ ← b !! 0%nat;
    Some (mkGame (<[0%nat := ROW_EMPTY]> b) score portb out)
  else Some g.

(** The outer loop from [Row] on, with [n] iterations left. *)
Fixpoint check_rows (n Row : nat) (g : Game) : option Game :=
  match n with
  | O => Some g
  | S n' => g ← check_row Row g; check_rows n' (S Row) g
  end.

Definition CheckCompletedRows (g : Game) : option Game :=
  check_rows BOARD_ROWS 0 g.

(** NewTetromino, with the value [r] that rand() returns and the RAND_MAX
    of the C library: type, orientation, speed, x and y of the new
    tetromino. *)
Definition NewTetromino (RAND_MAX r : Z) : Z * Z * Z * Z * nat :=
  (wrap8 (r / (RAND_MAX / TETROMINO_TYPES + 1)), 0, SPEED_DEFAULT,
   POSITION_X_CENTER, POSITION_Y_TOP).

(** A board with a filled bottom row, a gap row, and two more filled rows. *)
Definition board_three_full : list Z :=
  [0; 0; 0; 0; 0; 0; 0; 0; 0; 0; 0; 0; 255; 0x79; 255; 255].
Lemma scan_inv_step tasks occ i next hp t :
  tasks !! i = Some t ->
  scan_inv tasks occ i next hp ->
  (candidate occ t -> Priority t > hp -> scan_inv tasks occ (S i) i (Priority t)) /\
  ((~ candidate occ t \/ ~ Priority t > hp) -> scan_inv tasks occ (S i) next hp).
Proof.
  intros Hi Hinv. split.
  - intros Hc Hgt. right. exists t. split; [done|]. split; [done|]. split; [done|].
    assert (Hbelow : forall j t', (j < i)%nat -> tasks !! j = Some t' ->
              candidate occ t' -> Priority t' <= hp).
    { destruct Hinv as [(-> & _ & H0) | (t0 & _ & _ & _ & _ & Hmax & _)]; eauto. }
    assert (Hpos : hp >= 0).
    { destruct Hinv as [(-> & _ & _) | (t0 & _ & _ & _ & Hp & _ & _)]; lia. }
    split; [lia|]. split.
    + intros j t' Hj Hl Hc'. destruct (decide (j = i)) as [->|Hne].
      * rewrite Hi in Hl. injection Hl as <-. lia.
      * specialize (Hbelow j t' ltac:(lia) Hl Hc'). lia.
    + intros j t' Hj Hl Hc'. specialize (Hbelow j t' Hj Hl Hc'). lia.
  - intros Hno.
    destruct Hinv as [(-> & -> & H0) | (t0 & Hl0 & Hc0 & Hp0 & Hpos & Hmax & Hfirst)].
    + left. split; [done|]. split; [done|].
      intros j t' Hj Hl Hc'. destruct (decide (j = i)) as [->|Hne].
      * rewrite Hi in Hl. injection Hl as <-. destruct Hno as [Hno|Hno]; [done|lia].
      * apply (H0 j); [lia|done|done].
    + right. exists t0. repeat (split; [done|]). split; [|done].
      intros j t' Hj Hl Hc'. destruct (decide (j = i)) as [->|Hne].
      * rewrite Hi in Hl. injection Hl as <-. destruct Hno as [Hno|Hno]; [done|lia].
      * apply (Hmax j); [lia|done|done].
Qed.

Lemma scan_total n : forall tasks occ i next hp,
  (i + n)%nat = length tasks ->
  scan_inv tasks occ i next hp ->
  exists r hp', Os_Scheduler_scan n tasks occ i next hp = Some r /\
                scan_inv tasks occ (length tasks) r hp'.
Proof.
  induction n as [|n IH]; intros tasks occ i next hp Hlen Hinv; simpl.
  - exists next, hp. split; [done|]. by replace (length tasks) with i by lia.
  - destruct (lookup_lt_is_Some_2 tasks i ltac:(lia)) as [t Ht].
    rewrite Ht. simpl.
    destruct (scan_inv_step tasks occ i next hp t Ht Hinv) as [Hyes Hno].
    destruct (decide (candidate occ t)) as [Hc|Hc].
    + destruct (decide (Priority t > hp)) as [Hgt|Hgt].
      * apply IH; [lia|auto].
      * apply IH; [lia|auto].
    + apply IH; [lia|auto].
Qed.

Lemma scan_inv_picked tasks occ r hp :
  scan_inv tasks occ (length tasks) r hp -> picked tasks occ r.
Proof.
  intros [(-> & -> & H0) | (t & Hl & Hc & Hp & Hpos & Hmax & Hfirst)].
  - left. split; [done|]. intros j t Hl Hc.
    apply (H0 j t); [by eapply lookup_lt_Some|done|done].
  - right. exists t. subst hp. repeat (split; [done|]). split; [|done].
    intros j t' Hl' Hc'. apply (Hmax j t'); [by eapply lookup_lt_Some|done|done].
Qed.

(** On a table whose length is NrTasks the scan ends and its result is the
    task described by [picked]. *)
Lemma Os_Scheduler_pick_picked k :
  NrTasks k = length (Tasks k) ->
  exists next, Os_Scheduler_pick k = Some next /\
               picked (Tasks k) (ResourcesOccupied k) next.
Proof.
  intros Hn. unfold Os_Scheduler_pick.
  destruct (scan_total (NrTasks k) (Tasks k) (ResourcesOccupied k) 0%nat 0%nat 0)
    as (r & hp' & Hr & Hinv).
  - lia.
  - left. split; [done|]. split; [done|]. intros j t Hj. lia.
  - exists r. split; [done|]. by eapply scan_inv_picked.
Qed.

(** [picked] determines the index. *)
Lemma picked_unique tasks occ a b :
  picked tasks occ a -> picked tasks occ b -> a = b.
Proof.
  intros [(-> & Ha) | (ta & Hla & Hca & Hpa & Hmaxa & Hfa)]
         [(-> & Hb) | (tb & Hlb & Hcb & Hpb & Hmaxb & Hfb)].
  - done.
  - specialize (Ha b tb Hlb Hcb). lia.
  - specialize (Hb a ta Hla Hca). lia.
  - destruct (Nat.lt_trichotomy a b) as [Hlt | [-> | Hlt]]; [|done|].
    + specialize (Hfb a ta Hlt Hla Hca). specialize (Hmaxa b tb Hlb Hcb). lia.
    + specialize (Hfa b tb Hlt Hlb Hcb). specialize (Hmaxb a ta Hla Hca). lia.
Qed.

Lemma Kernel_eta k :
  mkKernel (Tasks k) (NrTasks k) (Timers k) (CurrentTask k) (CurrentTaskIndex k)
           (ResourcesOccupied k) (TCNT1H k) (TCNT1L k) (SREG_I k) = k.
Proof. by destruct k. Qed.

Lemma critical_id k : Uc_ExitCritical (SREG_I k) (with_SREG_I false k) = k.
Proof. by destruct k. Qed.

Lemma deliver_Priority m t : Priority (deliver m t) = Priority t.
Proof. unfold deliver. simpl. by case_decide. Qed.

Lemma Os_SetEvent_eq TaskID Mask k :
  Os_SetEvent TaskID Mask k =
    t ← Tasks k !! TaskID;
    let k1 := with_Tasks (alter (deliver Mask) TaskID (Tasks k)) k in
    if decide (Z.land (WaitForEvents t) (wrap8 (Z.lor (Events t) Mask)) <> 0) then
      cur ← Tasks k !! CurrentTaskIndex k;
      Some (if decide (Priority t > Priority cur) then Uc_ForceSchedule k1 else k1)
    else Some k1.
Proof.
  unfold Os_SetEvent, Uc_EnterCritical, Uc_ExitCritical, write_task. simpl.
  destruct (Tasks k !! TaskID) as [t|] eqn:Ht; simpl; [|done].
  rewrite list_lookup_alter_eq, Ht. simpl.
  case_decide as Hm; simpl.
  - rewrite list_alter_alter_eq.
    assert (He : alter (set_State TASK_STATE_READY ∘
                  (fun t0 => set_Events (wrap8 (Z.lor (Events t0) Mask)) t0))
                  TaskID (Tasks k) = alter (deliver Mask) TaskID (Tasks k)).
    { apply list_alter_ext; [|done]. intros x Hx. rewrite Ht in Hx.
      injection Hx as <-. unfold deliver. simpl. case_decide; [done|tauto]. }
    rewrite He, list_lookup_alter_eq, Ht. simpl.
    destruct (decide (CurrentTaskIndex k = TaskID)) as [Heq|Hne].
    + rewrite Heq, list_lookup_alter_eq, Ht. simpl.
      rewrite !deliver_Priority. by case_decide.
    + rewrite list_lookup_alter_ne by done.
      destruct (Tasks k !! CurrentTaskIndex k) as [cur|]; simpl; [|done].
      rewrite deliver_Priority. by case_decide.
  - unfold with_SREG_I, with_Tasks; simpl. do 2 f_equal.
    apply list_alter_ext; [|done]. intros x Hx. rewrite Ht in Hx.
    injection Hx as <-. unfold deliver. simpl. case_decide; [tauto|done].
Qed.

Lemma Os_WaitEvents_eq Mask k :
  Os_WaitEvents Mask k =
    t ← Tasks k !! CurrentTaskIndex k;
    if decide (Z.land (Events t) Mask = 0) then
      Some (Uc_ForceSchedule
              (with_Tasks (alter (set_State TASK_STATE_WAITING ∘ mark_wait Mask)
                                 (CurrentTaskIndex k) (Tasks k)) k),
            WaitPolls Mask)
    else
      Some (with_Tasks (alter (mark_wait Mask) (CurrentTaskIndex k) (Tasks k)) k,
            WaitReturns).
Proof.
  unfold Os_WaitEvents, Uc_EnterCritical, Uc_ExitCritical, write_task. simpl.
  destruct (Tasks k !! CurrentTaskIndex k) as [t|] eqn:Ht; simpl; [|done].
  rewrite list_lookup_alter_eq, Ht. simpl.
  case_decide as Hm; simpl; [|done].
  by rewrite list_alter_alter_eq.
Qed.

Lemma Os_ClearEvents_eq Mask k :
  Os_ClearEvents Mask k =
    _ ← Tasks k !! CurrentTaskIndex k;
    Some (with_Tasks (alter (clear Mask) (CurrentTaskIndex k) (Tasks k)) k).
Proof.
  unfold Os_ClearEvents, Uc_EnterCritical, Uc_ExitCritical, write_task. simpl.
  by destruct (Tasks k !! CurrentTaskIndex k).
Qed.

Lemma Os_GetEvents_eq k :
  Os_GetEvents k = t ← Tasks k !! CurrentTaskIndex k; Some (k, Events t).
Proof.
  unfold Os_GetEvents, Uc_EnterCritical. simpl.
  destruct (Tasks k !! CurrentTaskIndex k); simpl; [|done].
  by rewrite critical_id.
Qed.

Lemma Os_SetTimer_eq TimerID Val k :
  Os_SetTimer TimerID Val k =
    _ ← Timers k !! TimerID;
    Some (with_Timers (alter (set_Value Val) TimerID (Timers k)) k).
Proof.
  unfold Os_SetTimer, Uc_EnterCritical, Uc_ExitCritical, write_timer. simpl.
  by destruct (Timers k !! TimerID).
Qed.

Lemma Os_SetEvent_SREG_I TaskID Mask b k :
  Os_SetEvent TaskID Mask (with_SREG_I b k) = with_SREG_I b <$> Os_SetEvent TaskID Mask k.
Proof.
  rewrite !Os_SetEvent_eq. simpl.
  destruct (Tasks k !! TaskID) as [t|]; simpl; [|done].
  case_decide; simpl; [|done].
  destruct (Tasks k !! CurrentTaskIndex k) as [cur|]; simpl; [|done].
  by case_decide.
Qed.

Lemma Os_SetEvent_with_Timers TaskID Mask tm k :
  Os_SetEvent TaskID Mask (with_Timers tm k) = with_Timers tm <$> Os_SetEvent TaskID Mask k.
Proof.
  rewrite !Os_SetEvent_eq. simpl.
  destruct (Tasks k !! TaskID) as [t|]; simpl; [|done].
  case_decide; simpl; [|done].
  destruct (Tasks k !! CurrentTaskIndex k) as [cur|]; simpl; [|done].
  by case_decide.
Qed.

Lemma Os_SetEvent_frame TaskID Mask k k' :
  Os_SetEvent TaskID Mask k = Some k' ->
  Tasks k' = alter (deliver Mask) TaskID (Tasks k) /\
  NrTasks k' = NrTasks k /\ Timers k' = Timers k /\
  CurrentTask k' = CurrentTask k /\ CurrentTaskIndex k' = CurrentTaskIndex k /\
  ResourcesOccupied k' = ResourcesOccupied k /\ SREG_I k' = SREG_I k.
Proof.
  rewrite Os_SetEvent_eq. intros H.
  destruct (Tasks k !! TaskID) as [t|]; simpl in H; [|done].
  case_decide.
  - destruct (Tasks k !! CurrentTaskIndex k) as [cur|]; simpl in H; [|done].
    injection H as <-. by case_decide.
  - by injection H as <-.
Qed.

Lemma Os_TickTimer_eq TimerID k :
  Os_TickTimer TimerID k =
    tm ← Timers k !! TimerID;
    if decide (Value tm > 0) then
      let k1 := with_Timers (alter tick TimerID (Timers k)) k in
      if decide (wrap8 (Value tm - 1) = 0)
      then Os_SetEvent (TaskID tm) (Event tm) k1
      else Some k1
    else Some k.
Proof.
  unfold Os_TickTimer, Uc_EnterCritical, Uc_ExitCritical, write_timer. simpl.
  destruct (Timers k !! TimerID) as [tm|] eqn:Htm; simpl; [|done].
  case_decide as Hv; simpl.
  - rewrite list_lookup_alter_eq, Htm. simpl.
    case_decide as Hz; simpl; [|done].
    change (with_Timers ?l (with_SREG_I false k)) with (with_SREG_I false (with_Timers l k)).
    rewrite Os_SetEvent_SREG_I.
    destruct (Os_SetEvent _ _ _) as [k'|] eqn:Hk'; simpl; [|done].
    f_equal. apply Os_SetEvent_frame in Hk'. simpl in Hk'.
    destruct Hk' as (_ & _ & _ & _ & _ & _ & HI).
    destruct k'. simpl in *. by rewrite HI.
  - by rewrite critical_id.
Qed.

Lemma Os_GetResources_eq ResID k :
  Os_GetResources ResID k =
    Some (with_ResourcesOccupied (wrap8 (Z.lor (ResourcesOccupied k) ResID)) k).
Proof. done. Qed.

Lemma Os_ReleaseResources_eq ResID k :
  Os_ReleaseResources ResID k =
    Some (Uc_ForceSchedule
            (with_ResourcesOccupied
               (wrap8 (Z.land (ResourcesOccupied k) (Z.lnot ResID))) k)).
Proof. done. Qed.

Lemma Os_Scheduler_eq k :
  Os_Scheduler k =
    next ← Os_Scheduler_pick k;
    cur ← Tasks k !! CurrentTaskIndex k;
    nx ← Tasks k !! next;
    match State cur with
    | TASK_STATE_RUNNING =>
        if decide (Priority nx > Priority cur) then
          Some (with_Current next
                  (with_Tasks (alter (set_State TASK_STATE_RUNNING) next
                                 (alter (set_State TASK_STATE_READY)
                                        (CurrentTaskIndex k) (Tasks k))) k))
        else Some k
    | _ =>
        Some (with_Current next
                (with_Tasks (alter (set_State TASK_STATE_RUNNING) next (Tasks k)) k))
    end.
Proof.
  unfold Os_Scheduler, write_task.
  destruct (Os_Scheduler_pick k) as [next|]; simpl; [|done].
  destruct (Tasks k !! CurrentTaskIndex k) as [cur|] eqn:Hc; simpl; [|done].
  destruct (Tasks k !! next) as [nx|] eqn:Hn; simpl.
  - destruct (State cur); simpl; try done.
    case_decide; simpl; [|done].
    assert (is_Some (alter (set_State TASK_STATE_READY) (CurrentTaskIndex k) (Tasks k) !! next))
      as [x Hx].
    { apply lookup_lt_is_Some. rewrite length_alter. by eapply lookup_lt_Some. }
    by rewrite Hx.
  - by destruct (State cur).
Qed.

(** ** Array writes as slot replacement *)

Lemma alter_insert {A} (f : A -> A) (l : list A) i x :
  l !! i = Some x -> alter f i l = <[i := f x]> l.
Proof.
  intros Hx. rewrite list_insert_alter. apply list_alter_ext; [|done].
  intros y Hy. rewrite Hx in Hy. by injection Hy as <-.
Qed.

(** Whatever the table, the scan ends on task 0 or on a candidate. *)
Lemma scan_zero_or_candidate n : forall tasks occ i next hp r,
  Os_Scheduler_scan n tasks occ i next hp = Some r ->
  r = next \/ exists t, tasks !! r = Some t /\ candidate occ t.
Proof.
  induction n as [|n IH]; intros tasks occ i next hp r; simpl.
  - intros [= ->]. by left.
  - destruct (tasks !! i) as [t|] eqn:Ht; simpl; [|done].
    destruct (decide (candidate occ t)) as [Hc|Hc]; [|by apply IH].
    destruct (decide (Priority t > hp)); [|by apply IH].
    intros H. apply IH in H as [->|H]; [|by right].
    right. by exists t.
Qed.

Lemma pick_zero_or_candidate k next :
  Os_Scheduler_pick k = Some next ->
  next = 0%nat \/
  exists t, Tasks k !! next = Some t /\ candidate (ResourcesOccupied k) t.
Proof. apply scan_zero_or_candidate. Qed.

(** The three ways a call of Os_Scheduler ends. *)
Lemma Os_Scheduler_inv k k' :
  Os_Scheduler k = Some k' ->
  exists next cur nx,
    Os_Scheduler_pick k = Some next /\
    Tasks k !! CurrentTaskIndex k = Some cur /\
    Tasks k !! next = Some nx /\
    ((State cur <> TASK_STATE_RUNNING /\
      k' = with_Current next
             (with_Tasks (<[next := set_State TASK_STATE_RUNNING nx]> (Tasks k)) k))
     \/
     (State cur = TASK_STATE_RUNNING /\ Priority nx > Priority cur /\
      k' = with_Current next
             (with_Tasks (<[next := set_State TASK_STATE_RUNNING nx]>
                            (<[CurrentTaskIndex k := set_State TASK_STATE_READY cur]>
                               (Tasks k))) k))
     \/
     (State cur = TASK_STATE_RUNNING /\ ~ Priority nx > Priority cur /\ k' = k)).
Proof.
  rewrite Os_Scheduler_eq. intros H.
  destruct (Os_Scheduler_pick k) as [next|]; simpl in H; [|done].
  destruct (Tasks k !! CurrentTaskIndex k) as [cur|] eqn:Hc; simpl in H; [|done].
  destruct (Tasks k !! next) as [nx|] eqn:Hn; simpl in H; [|done].
  exists next, cur, nx. repeat (split; [done|]).
  destruct (State cur) eqn:Hs.
  - left. split; [done|]. injection H as <-. by rewrite (alter_insert _ _ _ nx).
  - right. case_decide as Hp.
    + left. repeat (split; [done|]). injection H as <-.
      rewrite (alter_insert _ (Tasks k) _ cur) by done.
      assert (next <> CurrentTaskIndex k).
      { intros ->. rewrite Hc in Hn. injection Hn as <-. lia. }
      rewrite (alter_insert _ _ _ nx); [done|].
      by rewrite list_lookup_insert_ne.
    + right. repeat (split; [done|]). by injection H as <-.
  - left. split; [done|]. injection H as <-. by rewrite (alter_insert _ _ _ nx).
Qed.

(** Os_Scheduler runs to completion on a well-formed kernel. *)
Lemma Os_Scheduler_total k :
  well_formed k -> exists k', Os_Scheduler k = Some k'.
Proof.
  intros [Hn Hc]. rewrite Os_Scheduler_eq.
  destruct (Os_Scheduler_pick_picked k Hn) as (next & -> & Hp). simpl.
  destruct (lookup_lt_is_Some_2 _ _ Hc) as [cur ->]. simpl.
  assert (is_Some (Tasks k !! next)) as [nx ->].
  { destruct Hp as [(-> & _) | (t & Ht & _)]; [|by eexists].
    apply lookup_lt_is_Some. lia. }
  simpl. destruct (State cur); try case_decide; by eexists.
Qed.

(** ** Os_Scheduler: the pick and the dispatch *)

(** C1 (amended). On a well-formed kernel Os_Scheduler picks the first task
    of greatest priority among the READY tasks of priority above 0 whose
    required resources are free, and task 0 when there is none.  If the
    current task is READY or WAITING the picked task is made RUNNING and
    becomes current, every other descriptor staying as it is: the current
    task keeps its state unless it is the picked task itself.  If the current
    task is RUNNING it is preempted (current READY, picked RUNNING, current
    task updated) exactly when the picked priority is strictly greater, and
    otherwise nothing changes. *)
Theorem Os_Scheduler_dispatch k :
  well_formed k ->
  exists next cur nx,
    Os_Scheduler_pick k = Some next /\
    picked (Tasks k) (ResourcesOccupied k) next /\
    Tasks k !! CurrentTaskIndex k = Some cur /\
    Tasks k !! next = Some nx /\
    match State cur with
    | TASK_STATE_RUNNING =>
        (Priority nx > Priority cur -> Os_Scheduler k = Some (preempt next nx cur k)) /\
        (~ Priority nx > Priority cur -> Os_Scheduler k = Some k)
    | _ =>
        Os_Scheduler k = Some (dispatch next nx k) /\
        state_of (dispatch next nx k) next = Some TASK_STATE_RUNNING /\
        (forall i, i <> next -> Tasks (dispatch next nx k) !! i = Tasks k !! i) /\
        (next <> CurrentTaskIndex k ->
         state_of (dispatch next nx k) (CurrentTaskIndex k) = Some (State cur))
    end.
Proof.
  intros Hwf. destruct (Os_Scheduler_total k Hwf) as [k' Hk'].
  destruct Hwf as [Hn Hc].
  destruct (Os_Scheduler_inv k k' Hk') as (next & cur & nx & Hp & Hcur & Hnx & Hcases).
  exists next, cur, nx.
  destruct (Os_Scheduler_pick_picked k Hn) as (next' & Hp' & Hpicked).
  rewrite Hp in Hp'. injection Hp' as <-.
  repeat (split; [done|]).
  assert (Hdisp : State cur <> TASK_STATE_RUNNING ->
    Os_Scheduler k = Some (dispatch next nx k) /\
    state_of (dispatch next nx k) next = Some TASK_STATE_RUNNING /\
    (forall i, i <> next -> Tasks (dispatch next nx k) !! i = Tasks k !! i) /\
    (next <> CurrentTaskIndex k ->
     state_of (dispatch next nx k) (CurrentTaskIndex k) = Some (State cur))).
  { intros Hs. destruct Hcases as [(_ & ->) | [(Hr & _) | (Hr & _)]]; try done.
    split; [done|]. unfold state_of, dispatch. simpl. split; [|split].
    - rewrite list_lookup_insert_eq; [done|]. by eapply lookup_lt_Some.
    - intros i Hi. by rewrite list_lookup_insert_ne.
    - intros Hne. rewrite list_lookup_insert_ne by done. by rewrite Hcur. }
  destruct (State cur) eqn:Hs; [by apply Hdisp| |by apply Hdisp].
  destruct Hcases as [(Hr & _) | [(_ & Hgt & ->) | (_ & Hle & ->)]]; [done| |].
  - split; [done|]. intros. lia.
  - split; [|done]. intros. lia.
Qed.

Lemma Os_Scheduler_dispatch_witness :
  well_formed ap_boot /\
  exists next cur nx,
    Os_Scheduler_pick ap_boot = Some next /\
    picked (Tasks ap_boot) (ResourcesOccupied ap_boot) next /\
    Tasks ap_boot !! CurrentTaskIndex ap_boot = Some cur /\
    Tasks ap_boot !! next = Some nx /\
    match State cur with
    | TASK_STATE_RUNNING =>
        (Priority nx > Priority cur ->
         Os_Scheduler ap_boot = Some (preempt next nx cur ap_boot)) /\
        (~ Priority nx > Priority cur -> Os_Scheduler ap_boot = Some ap_boot)
    | _ =>
        Os_Scheduler ap_boot = Some (dispatch next nx ap_boot) /\
        state_of (dispatch next nx ap_boot) next = Some TASK_STATE_RUNNING /\
        (forall i, i <> next -> Tasks (dispatch next nx ap_boot) !! i = Tasks ap_boot !! i) /\
        (next <> CurrentTaskIndex ap_boot ->
         state_of (dispatch next nx ap_boot) (CurrentTaskIndex ap_boot) = Some (State cur))
    end.
Proof.
  assert (Hwf : well_formed ap_boot) by (split; [reflexivity | simpl; lia]).
  split; [exact Hwf | exact (Os_Scheduler_dispatch ap_boot Hwf)].
Defined.

(** C1 as stated fails: reached from start-up by one scheduler run,
    Os_WaitEvents(1) of task 1 and Os_SetEvent(1, 1), task 1 is the current
    task in state READY; the scheduler picks it and writes RUNNING into the
    current task's own state. *)
Lemma Os_Scheduler_rewrites_current_state :
  run [OpSchedule; OpWaitEvents 1; OpSetEvent 1 1] (Os_StartOS two_tasks 2 [])
    = Some woken_current /\
  CurrentTaskIndex woken_current = 1%nat /\
  state_of woken_current 1 = Some TASK_STATE_READY /\
  Os_Scheduler_pick woken_current = Some 1%nat /\
  exists k', Os_Scheduler woken_current = Some k' /\
             state_of k' 1 = Some TASK_STATE_RUNNING.
Proof.
  split; [reflexivity|]. split; [reflexivity|]. split; [reflexivity|].
  split; [reflexivity|]. eexists. split; reflexivity.
Qed.

(** C9 (amended). When READY tasks with free resources tie for the greatest
    priority among such tasks, and that priority is above 0, the scan settles
    on the tied task of lowest index. *)
Theorem Os_Scheduler_pick_tie k i j ti tj :
  NrTasks k = length (Tasks k) ->
  Tasks k !! i = Some ti ->
  Tasks k !! j = Some tj ->
  (i < j)%nat ->
  candidate (ResourcesOccupied k) ti ->
  candidate (ResourcesOccupied k) tj ->
  Priority tj = Priority ti ->
  Priority ti > 0 ->
  (forall h th, Tasks k !! h = Some th -> candidate (ResourcesOccupied k) th ->
                Priority th <= Priority ti) ->
  (forall h th, (h < i)%nat -> Tasks k !! h = Some th ->
                candidate (ResourcesOccupied k) th -> Priority th <> Priority ti) ->
  Os_Scheduler_pick k = Some i /\ Os_Scheduler_pick k <> Some j.
Proof.
  intros Hn Hi Hj Hij Hci Hcj Hpj Hpos Hmax Hlow.
  destruct (Os_Scheduler_pick_picked k Hn) as (next & Hp & Hpicked).
  assert (next = i) as ->.
  { apply (picked_unique (Tasks k) (ResourcesOccupied k)); [done|].
    right. exists ti. repeat (split; [done|]).
    intros h th Hh Hl Hc. specialize (Hmax h th Hl Hc).
    specialize (Hlow h th Hh Hl Hc). lia. }
  split; [done|]. rewrite Hp. intros [= ->]. lia.
Qed.

Lemma Os_Scheduler_pick_tie_witness :
  Os_Scheduler_pick tied_tasks = Some 1%nat /\
  Os_Scheduler_pick tied_tasks <> Some 2%nat.
Proof.
  apply (Os_Scheduler_pick_tie tied_tasks 1 2
           (mkTask 0 TASK_STATE_READY 0 0 0 2) (mkTask 0 TASK_STATE_READY 0 0 0 2)).
  - reflexivity.
  - reflexivity.
  - reflexivity.
  - lia.
  - split; reflexivity.
  - split; reflexivity.
  - reflexivity.
  - simpl; lia.
  - intros [|[|[|h]]] th Hl [Hs _]; simpl in Hl; try discriminate;
      injection Hl as <-; simpl in *; try lia; discriminate.
  - intros [|h] th Hh Hl [Hs _]; [|lia].
    simpl in Hl. injection Hl as <-. discriminate.
Defined.

(** C9 as stated fails: after the first scheduler run on three tasks of
    priority 0, tasks 1 and 2 are the READY tasks with free resources and
    share their priority, yet the scan settles on task 0, which is RUNNING. *)
Lemma Os_Scheduler_pick_level0_tie :
  run [OpSchedule] (Os_StartOS three_level0 3 []) = Some level0_running /\
  (forall i t, Tasks level0_running !! i = Some t ->
     (candidate (ResourcesOccupied level0_running) t <-> i = 1%nat \/ i = 2%nat)) /\
  priority_of level0_running 1 = priority_of level0_running 2 /\
  Os_Scheduler_pick level0_running = Some 0%nat.
Proof.
  split; [reflexivity|]. split; [|split; reflexivity].
  intros [|[|[|i]]] t Hl; simpl in Hl; try discriminate; injection Hl as <-;
    unfold candidate; simpl; split; try lia; intros H; try (split; reflexivity);
    destruct H as [H _]; discriminate.
Qed.

(** ** Who gets dispatched *)

(** C2 (amended). The task Os_Scheduler dispatches is the task its scan
    settled on, and that task is task 0, taken without any test when no READY
    task of priority above 0 has its resources free, or a task that is READY
    with none of its required resources occupied.  Hence, whenever task 0 is
    not WAITING and requires no occupied resource, the dispatched task is not
    WAITING and requires no occupied resource. *)
Theorem Os_Scheduler_dispatches_eligible k :
  well_formed k ->
  exists k' next nx,
    Os_Scheduler k = Some k' /\
    Os_Scheduler_pick k = Some next /\
    Tasks k !! next = Some nx /\
    (k' = k \/ CurrentTaskIndex k' = next) /\
    (next = 0%nat \/ candidate (ResourcesOccupied k) nx) /\
    ((forall t0, Tasks k !! 0%nat = Some t0 ->
        State t0 <> TASK_STATE_WAITING /\
        Z.land (RequiredResources t0) (ResourcesOccupied k) = 0) ->
     State nx <> TASK_STATE_WAITING /\
     Z.land (RequiredResources nx) (ResourcesOccupied k) = 0).
Proof.
  intros Hwf. destruct (Os_Scheduler_total k Hwf) as [k' Hk'].
  destruct (Os_Scheduler_inv k k' Hk') as (next & cur & nx & Hp & Hcur & Hnx & Hcases).
  exists k', next, nx. repeat (split; [done|]).
  assert (Hel : next = 0%nat \/ candidate (ResourcesOccupied k) nx).
  { destruct (pick_zero_or_candidate k next Hp) as [->|(t & Ht & Hc)]; [by left|].
    right. rewrite Hnx in Ht. by injection Ht as <-. }
  split; [|split; [done|]].
  - destruct Hcases as [(_ & ->) | [(_ & _ & ->) | (_ & _ & ->)]]; auto.
  - intros H0. destruct Hel as [->|[Hs Hr]]; [by apply H0|].
    split; [|done]. rewrite Hs. discriminate.
Qed.

Lemma Os_Scheduler_dispatches_eligible_witness :
  well_formed ap_boot /\
  exists k' next nx,
    Os_Scheduler ap_boot = Some k' /\
    Os_Scheduler_pick ap_boot = Some next /\
    Tasks ap_boot !! next = Some nx /\
    (k' = ap_boot \/ CurrentTaskIndex k' = next) /\
    (next = 0%nat \/ candidate (ResourcesOccupied ap_boot) nx) /\
    ((forall t0, Tasks ap_boot !! 0%nat = Some t0 ->
        State t0 <> TASK_STATE_WAITING /\
        Z.land (RequiredResources t0) (ResourcesOccupied ap_boot) = 0) ->
     State nx <> TASK_STATE_WAITING /\
     Z.land (RequiredResources nx) (ResourcesOccupied ap_boot) = 0).
Proof.
  assert (Hwf : well_formed ap_boot) by (split; [reflexivity | simpl; lia]).
  split; [exact Hwf | exact (Os_Scheduler_dispatches_eligible ap_boot Hwf)].
Defined.

(** C2 as stated fails: task 0 (priority 2) waits for an event, task 1
    (priority 1) runs and has taken resource 1, which task 0 requires too.
    No task is READY, the scan falls back on task 0, and since its priority
    is the greater the scheduler dispatches it: a WAITING task whose required
    resource is occupied. *)
Lemma Os_Scheduler_dispatches_waiting_blocked :
  run [OpSchedule; OpWaitEvents 1; OpSchedule; OpGetResources 1]
      (Os_StartOS shared_resource_tasks 2 []) = Some holder_running /\
  exists k' t0,
    Os_Scheduler holder_running = Some k' /\
    CurrentTaskIndex k' = 0%nat /\ CurrentTask k' = TaskSlot 0 /\
    state_of k' 0 = Some TASK_STATE_RUNNING /\
    Tasks holder_running !! 0%nat = Some t0 /\
    State t0 = TASK_STATE_WAITING /\
    Z.land (RequiredResources t0) (ResourcesOccupied holder_running) <> 0.
Proof.
  split; [reflexivity|]. do 2 eexists.
  repeat (split; [reflexivity|]). simpl. discriminate.
Qed.

(** ** One step of a service *)

Lemma exec_service op k k' :
  op <> OpSchedule ->
  exec op k = Some k' ->
  CurrentTaskIndex k' = CurrentTaskIndex k /\
  (Tasks k' = Tasks k \/
   exists i f, service_write k op i f /\ Tasks k' = alter f i (Tasks k)).
Proof.
  intros Hop H. destruct op as [|t m|m| |m|m|m|t v|t]; simpl in H; [done|..].
  - apply Os_SetEvent_frame in H as (Ht & _ & _ & _ & Hc & _).
    split; [done|]. right. exists t, (deliver m). split; [constructor|done].
  - rewrite Os_ClearEvents_eq in H.
    destruct (Tasks k !! CurrentTaskIndex k); simpl in H; [|done].
    injection H as <-. split; [done|]. right.
    exists (CurrentTaskIndex k), (clear m). split; [constructor|done].
  - rewrite Os_GetEvents_eq in H.
    destruct (Tasks k !! CurrentTaskIndex k); simpl in H; [|done].
    injection H as <-. auto.
  - rewrite Os_WaitEvents_eq in H.
    destruct (Tasks k !! CurrentTaskIndex k); simpl in H; [|done].
    case_decide; simpl in H; injection H as <-; (split; [done|]); right.
    + eexists _, _. split; [apply write_WaitEvents_polls|done].
    + eexists _, _. split; [apply write_WaitEvents_returns|done].
  - rewrite Os_GetResources_eq in H. injection H as <-. auto.
  - rewrite Os_ReleaseResources_eq in H. injection H as <-. auto.
  - rewrite Os_SetTimer_eq in H.
    destruct (Timers k !! t); simpl in H; [|done]. injection H as <-. auto.
  - rewrite Os_TickTimer_eq in H.
    destruct (Timers k !! t) as [tm|] eqn:Htm; simpl in H; [|done].
    case_decide; [|injection H as <-; auto].
    case_decide; [|injection H as <-; auto].
    apply Os_SetEvent_frame in H as (Ht & _ & _ & _ & Hc & _). simpl in *.
    split; [done|]. right. exists (TaskID tm), (deliver (Event tm)).
    split; [by econstructor|done].
Qed.

Lemma service_write_State k op i f t :
  service_write k op i f ->
  State (f t) = State t \/ State (f t) = TASK_STATE_READY \/
  State (f t) = TASK_STATE_WAITING.
Proof.
  intros [ | | | | ]; unfold deliver, clear, mark_wait; simpl;
    try case_decide; simpl; auto.
Qed.

(** ** At most one RUNNING task *)

Lemma exec_running_is_current op k k' :
  exec op k = Some k' -> running_is_current k -> running_is_current k'.
Proof.
  intros H Hinv. destruct (decide (op = OpSchedule)) as [->|Hop].
  - simpl in H.
    destruct (Os_Scheduler_inv k k' H) as (next & cur & nx & Hp & Hcur & Hnx & Hcases).
    destruct Hcases as [(Hs & ->) | [(Hs & Hgt & ->) | (_ & _ & ->)]]; [| |done].
    + intros i t. simpl. destruct (decide (i = next)) as [->|Hne]; [done|].
      rewrite list_lookup_insert_ne by done. intros Hl Hr.
      pose proof (Hinv i t Hl Hr) as ->. rewrite Hcur in Hl. by injection Hl as <-.
    + intros i t. simpl. destruct (decide (i = next)) as [->|Hne]; [done|].
      rewrite list_lookup_insert_ne by done.
      destruct (decide (i = CurrentTaskIndex k)) as [->|Hne'].
      * rewrite list_lookup_insert_eq by (by eapply lookup_lt_Some).
        intros [= <-]. done.
      * rewrite list_lookup_insert_ne by done. intros Hl Hr.
        by pose proof (Hinv i t Hl Hr).
  - destruct (exec_service op k k' Hop H) as [Hc [Ht | (i & f & Hw & Ht)]];
      intros j t; rewrite Ht, Hc; [by apply Hinv|].
    rewrite list_lookup_alter. case_decide as Hij; [|by apply Hinv].
    subst j. destruct (Tasks k !! i) as [t0|] eqn:Hl; simpl; [|done].
    intros [= <-] Hr. apply (Hinv i t0 Hl).
    destruct (service_write_State k op i f t0 Hw) as [He | [He | He]]; congruence.
Qed.

Lemma run_running_is_current ops : forall k k',
  run ops k = Some k' -> running_is_current k -> running_is_current k'.
Proof.
  induction ops as [|op ops IH]; intros k k'; simpl.
  - by intros [= <-].
  - destruct (exec op k) as [k1|] eqn:H1; simpl; [|done].
    intros Hr Hinv. apply (IH k1 k' Hr). by eapply exec_running_is_current.
Qed.

(** C3. In every state reached from the start configuration (all tasks
    READY, no event set, no resource occupied) by kernel operations, at most
    one descriptor of the task table is RUNNING. *)
Theorem at_most_one_running tasks n timers ops k :
  initial_tasks tasks ->
  run ops (Os_StartOS tasks n timers) = Some k ->
  forall i j ti tj,
    Tasks k !! i = Some ti -> Tasks k !! j = Some tj ->
    State ti = TASK_STATE_RUNNING -> State tj = TASK_STATE_RUNNING ->
    i = j.
Proof.
  intros Hinit Hrun.
  assert (Hinv : running_is_current k).
  { apply (run_running_is_current ops _ _ Hrun).
    intros i t Hl Hs. simpl in Hl.
    apply (proj1 (Forall_lookup _ _) Hinit) in Hl as [Hr _]. congruence. }
  intros i j ti tj Hi Hj Hsi Hsj.
  rewrite (Hinv i ti Hi Hsi), (Hinv j tj Hj Hsj). done.
Qed.

Lemma at_most_one_running_witness :
  exists k, run ap_trace ap_boot = Some k /\
    state_of k 1 = Some TASK_STATE_RUNNING /\
    forall i j ti tj,
      Tasks k !! i = Some ti -> Tasks k !! j = Some tj ->
      State ti = TASK_STATE_RUNNING -> State tj = TASK_STATE_RUNNING ->
      i = j.
Proof.
  eexists. split; [vm_compute; reflexivity|]. split; [reflexivity|].
  apply (at_most_one_running ap_Tasks 4 ap_Timers ap_trace).
  - repeat constructor.
  - vm_compute; reflexivity.
Defined.

(** ** The transitions of a task's state *)




(** ** Bits of [uint8_t] values *)

Lemma wrap8_land z : wrap8 z = Z.land z 255.
Proof. unfold wrap8. change 255 with (Z.ones 8). by rewrite Z.land_ones. Qed.

Lemma testbit_255 n : 0 <= n -> Z.testbit 255 n = (n <? 8).
Proof. intros Hn. change 255 with (Z.ones 8). by apply Z.testbit_ones_nonneg. Qed.

Lemma is_u8_land z : is_u8 z <-> Z.land z 255 = z.
Proof.
  rewrite <- wrap8_land. unfold wrap8, is_u8. split.
  - intros H. by apply Z.mod_small.
  - intros <-. apply Z.mod_pos_bound. lia.
Qed.

Lemma is_u8_wrap8 z : is_u8 (wrap8 z).
Proof. unfold is_u8, wrap8. apply Z.mod_pos_bound. lia. Qed.

Lemma wrap8_u8 z : is_u8 z -> wrap8 z = z.
Proof. intros H. by apply Z.mod_small. Qed.

Lemma is_u8_testbit z n : is_u8 z -> 8 <= n -> Z.testbit z n = false.
Proof.
  intros Hz Hn. apply is_u8_land in Hz. rewrite <- Hz.
  rewrite Z.land_spec, testbit_255 by lia.
  replace (n <? 8) with false by (symmetry; apply Z.ltb_ge; lia).
  apply andb_false_r.
Qed.

(** Bit by bit, with the bits from 8 on of the named [uint8_t] values off. *)
Ltac u8_bits :=
  apply Z.bits_inj'; intros n Hn;
  rewrite ?wrap8_land;
  repeat first [ rewrite Z.land_spec | rewrite Z.lor_spec
               | rewrite Z.lnot_spec by lia | rewrite testbit_255 by lia ];
  destruct (Z.ltb_spec n 8);
  repeat match goal with
         | H : is_u8 ?z |- context [Z.testbit ?z n] =>
             rewrite (is_u8_testbit z n H) by lia
         end;
  repeat match goal with
         | |- context [Z.testbit ?z n] => destruct (Z.testbit z n)
         end;
  try reflexivity.

Lemma is_u8_lor a b : is_u8 a -> is_u8 b -> is_u8 (Z.lor a b).
Proof. intros Ha Hb. apply is_u8_land. u8_bits. Qed.

Lemma wrap8_lor a b : is_u8 a -> is_u8 b -> wrap8 (Z.lor a b) = Z.lor a b.
Proof. intros Ha Hb. apply wrap8_u8. by apply is_u8_lor. Qed.


Lemma wrap8_lor_has a b : is_u8 b -> Z.land (wrap8 (Z.lor a b)) b = b.
Proof. intros Hb. u8_bits. Qed.

Lemma wrap8_clear a m : is_u8 a -> wrap8 (Z.land a (Z.lnot m)) = Z.land a (Z.lnot m).
Proof. intros Ha. u8_bits. Qed.

Lemma land_lor_lnot r m : Z.land (Z.lor r m) (Z.lnot m) = Z.land r (Z.lnot m).
Proof.
  apply Z.bits_inj'; intros n Hn.
  rewrite !Z.land_spec, Z.lor_spec, Z.lnot_spec by lia.
  destruct (Z.testbit r n), (Z.testbit m n); reflexivity.
Qed.

Lemma land_lnot_id r m : Z.land r (Z.lnot m) = r <-> Z.land r m = 0.
Proof.
  split; intros H; apply Z.bits_inj'; intros n Hn.
  - apply (f_equal (fun z => Z.testbit z n)) in H.
    rewrite Z.land_spec, Z.lnot_spec in H by lia.
    rewrite Z.land_spec, Z.bits_0.
    destruct (Z.testbit r n), (Z.testbit m n); simpl in *; congruence.
  - apply (f_equal (fun z => Z.testbit z n)) in H.
    rewrite Z.land_spec, Z.bits_0 in H.
    rewrite Z.land_spec, Z.lnot_spec by lia.
    destruct (Z.testbit r n), (Z.testbit m n); simpl in *; congruence.
Qed.



(** ** Os_SetEvent *)

Lemma deliver_fields Mask t :
  Events (deliver Mask t) = wrap8 (Z.lor (Events t) Mask) /\
  WaitForEvents (deliver Mask t) = WaitForEvents t /\
  RequiredResources (deliver Mask t) = RequiredResources t /\
  (Z.land (WaitForEvents t) (wrap8 (Z.lor (Events t) Mask)) <> 0 ->
   State (deliver Mask t) = TASK_STATE_READY) /\
  (Z.land (WaitForEvents t) (wrap8 (Z.lor (Events t) Mask)) = 0 ->
   State (deliver Mask t) = State t).
Proof.
  unfold deliver. simpl. case_decide; simpl; repeat split; tauto.
Qed.

(** What a call of Os_SetEvent that stays within the table does. *)
Lemma Os_SetEvent_effect TaskID Mask k t cur :
  is_u8 Mask ->
  Tasks k !! TaskID = Some t ->
  Tasks k !! CurrentTaskIndex k = Some cur ->
  exists k' t',
    Os_SetEvent TaskID Mask k = Some k' /\
    Tasks k' !! TaskID = Some t' /\
    Z.land (Events t') Mask = Mask /\
    WaitForEvents t' = WaitForEvents t /\
    (Z.land (WaitForEvents t') (Events t') <> 0 ->
     State t' = TASK_STATE_READY /\
     (Priority t > Priority cur -> force_raised k')) /\
    (Z.land (WaitForEvents t') (Events t') = 0 ->
     State t' = State t /\ TCNT1H k' = TCNT1H k /\ TCNT1L k' = TCNT1L k).
Proof.
  intros Hm Ht Hc. rewrite Os_SetEvent_eq, Ht. simpl. rewrite Hc. simpl.
  assert (Hl : alter (deliver Mask) TaskID (Tasks k) !! TaskID = Some (deliver Mask t))
    by (by rewrite list_lookup_alter_eq, Ht).
  destruct (deliver_fields Mask t) as (Hev & Hw & _ & Hready & Hsame).
  assert (He : Z.land (Events (deliver Mask t)) Mask = Mask).
  { rewrite Hev. by apply wrap8_lor_has. }
  case_decide as Hmatch.
  - case_decide as Hp; eexists _, (deliver Mask t);
      (split; [done|]); simpl; (split; [done|]); (split; [done|]); (split; [done|]);
      rewrite Hw, Hev; (split; [|done]); intros _; (split; [by apply Hready|]).
    + intros _. by split.
    + done.
  - eexists _, (deliver Mask t). split; [done|]. simpl.
    split; [done|]. split; [done|]. split; [done|]. rewrite Hw, Hev.
    split; [done|]. intros _. split; [|done]. by apply Hsame.
Qed.

(** C4 (amended). After Os_SetEvent(t, m) the events of task t contain every
    bit of m.  If then WaitForEvents and Events of task t intersect, task t is
    READY, and in that case the forced-reschedule signal is raised when the
    priority of task t exceeds that of the current task.  If they do not
    intersect, the state of task t and Timer1 are left as they were, whatever
    the priorities. *)
Theorem Os_SetEvent_posts TaskID Mask k t cur :
  is_u8 Mask ->
  Tasks k !! TaskID = Some t ->
  Tasks k !! CurrentTaskIndex k = Some cur ->
  exists k' t',
    Os_SetEvent TaskID Mask k = Some k' /\
    Tasks k' !! TaskID = Some t' /\
    Z.land (Events t') Mask = Mask /\
    WaitForEvents t' = WaitForEvents t /\
    (Z.land (WaitForEvents t') (Events t') <> 0 ->
     State t' = TASK_STATE_READY /\
     (Priority t > Priority cur -> force_raised k')) /\
    (Z.land (WaitForEvents t') (Events t') = 0 ->
     State t' = State t /\ TCNT1H k' = TCNT1H k /\ TCNT1L k' = TCNT1L k).
Proof. apply Os_SetEvent_effect. Qed.

Lemma Os_SetEvent_posts_witness :
  exists k' t',
    Os_SetEvent 1 1 idle_running_waiter = Some k' /\
    Tasks k' !! 1%nat = Some t' /\
    Z.land (Events t') 1 = 1 /\
    WaitForEvents t' = 1 /\
    (Z.land (WaitForEvents t') (Events t') <> 0 ->
     State t' = TASK_STATE_READY /\
     (1 > 0 -> force_raised k')) /\
    (Z.land (WaitForEvents t') (Events t') = 0 ->
     State t' = TASK_STATE_WAITING /\ TCNT1H k' = 60 /\ TCNT1L k' = 176).
Proof.
  apply (Os_SetEvent_posts 1 1 idle_running_waiter
           (mkTask 0 TASK_STATE_WAITING 0 1 0 1) (mkTask 0 TASK_STATE_RUNNING 0 0 0 0)).
  - unfold is_u8. lia.
  - reflexivity.
  - reflexivity.
Defined.

(** C4 as stated fails: right after start-up task 1 has a greater priority
    than the current task, but it awaits no event, and Os_SetEvent(1, 1) does
    not raise the forced-reschedule signal. *)
Lemma Os_SetEvent_no_signal_without_wait :
  exists k' cur t,
    Os_SetEvent 1 1 (Os_StartOS two_tasks 2 []) = Some k' /\
    Tasks (Os_StartOS two_tasks 2 []) !! CurrentTaskIndex (Os_StartOS two_tasks 2 [])
      = Some cur /\
    Tasks (Os_StartOS two_tasks 2 []) !! 1%nat = Some t /\
    Priority t > Priority cur /\
    ~ force_raised k'.
Proof.
  do 3 eexists. repeat (split; [reflexivity|]).
  intros [H _]. discriminate H.
Qed.

(** ** Os_WaitEvents *)



(** ** Resources *)

(** C6 (amended). Os_GetResources(m) followed by Os_ReleaseResources(m)
    leaves ResourcesOccupied with the bits of m cleared; this is its value
    before the pair exactly when no resource of m was occupied before. *)
Theorem Os_GetResources_ReleaseResources ResID k :
  is_u8 (ResourcesOccupied k) ->
  is_u8 ResID ->
  exists k1 k2,
    Os_GetResources ResID k = Some k1 /\
    Os_ReleaseResources ResID k1 = Some k2 /\
    ResourcesOccupied k2 = Z.land (ResourcesOccupied k) (Z.lnot ResID) /\
    (ResourcesOccupied k2 = ResourcesOccupied k <->
     Z.land (ResourcesOccupied k) ResID = 0).
Proof.
  intros Hr Hm. rewrite Os_GetResources_eq. eexists _, _. split; [done|].
  rewrite Os_ReleaseResources_eq. split; [done|]. simpl.
  assert (He : wrap8 (Z.land (wrap8 (Z.lor (ResourcesOccupied k) ResID)) (Z.lnot ResID))
               = Z.land (ResourcesOccupied k) (Z.lnot ResID)).
  { rewrite wrap8_lor by done. rewrite wrap8_clear by (by apply is_u8_lor).
    apply land_lor_lnot. }
  rewrite He. split; [done|]. apply land_lnot_id.
Qed.

Lemma Os_GetResources_ReleaseResources_witness :
  exists k1 k2,
    Os_GetResources 64 ap_boot = Some k1 /\
    Os_ReleaseResources 64 k1 = Some k2 /\
    ResourcesOccupied k2 = Z.land (ResourcesOccupied ap_boot) (Z.lnot 64) /\
    (ResourcesOccupied k2 = ResourcesOccupied ap_boot <->
     Z.land (ResourcesOccupied ap_boot) 64 = 0).
Proof.
  apply (Os_GetResources_ReleaseResources 64 ap_boot); unfold is_u8; simpl; lia.
Defined.

(** C6 as stated fails: with resource 1 occupied beforehand (as in
    [holder_running]), taking and releasing resource 1 leaves no resource
    occupied. *)
Lemma Os_GetResources_ReleaseResources_nested :
  ResourcesOccupied holder_running = 1 /\
  exists k1 k2,
    Os_GetResources 1 holder_running = Some k1 /\
    Os_ReleaseResources 1 k1 = Some k2 /\
    ResourcesOccupied k2 = 0 /\
    ResourcesOccupied k2 <> ResourcesOccupied holder_running.
Proof.
  split; [reflexivity|]. do 2 eexists. repeat (split; [reflexivity|]).
  simpl. discriminate.
Qed.

(** ** Timers *)

Lemma Os_TickTimer_inert TimerID k tm :
  Timers k !! TimerID = Some tm -> Value tm = 0 -> Os_TickTimer TimerID k = Some k.
Proof.
  intros Htm Hv. rewrite Os_TickTimer_eq, Htm. simpl.
  rewrite decide_False; [done|lia].
Qed.

Lemma Os_TickTimer_counts TimerID k tm :
  Timers k !! TimerID = Some tm -> is_u8 (Value tm) -> Value tm > 1 ->
  Os_TickTimer TimerID k =
    Some (with_Timers (<[TimerID := set_Value (Value tm - 1) tm]> (Timers k)) k).
Proof.
  intros Htm Hu Hv. rewrite Os_TickTimer_eq, Htm. simpl.
  assert (Hw : wrap8 (Value tm - 1) = Value tm - 1)
    by (apply wrap8_u8; unfold is_u8 in *; lia).
  rewrite decide_True by lia. rewrite decide_False by lia.
  rewrite (alter_insert _ _ _ tm) by done. unfold tick. by rewrite Hw.
Qed.

Lemma Os_TickTimer_expires TimerID k tm :
  Timers k !! TimerID = Some tm -> Value tm = 1 ->
  Os_TickTimer TimerID k =
    Os_SetEvent (TaskID tm) (Event tm)
      (with_Timers (<[TimerID := set_Value 0 tm]> (Timers k)) k).
Proof.
  intros Htm Hv. rewrite Os_TickTimer_eq, Htm. simpl.
  rewrite decide_True by lia.
  rewrite decide_True by (by rewrite Hv).
  rewrite (alter_insert _ _ _ tm) by done. unfold tick. by rewrite Hv.
Qed.

Lemma run_ticks_inert TimerID k tm n :
  Timers k !! TimerID = Some tm -> Value tm = 0 ->
  run (replicate n (OpTickTimer TimerID)) k = Some k.
Proof.
  intros Htm Hv. induction n as [|n IH]; simpl; [done|].
  by rewrite (Os_TickTimer_inert TimerID k tm).
Qed.

(** C7. Os_TickTimer leaves the kernel as it is when the value of the timer
    is 0; when the value is positive it decrements it, touching nothing else
    while the new value is not 0, and calling Os_SetEvent with the owner and
    the event of the timer when the new value is 0.  After Os_SetTimer(t, 3)
    the first two ticks leave the task table alone and the third sets the
    event at the owner; after Os_SetTimer(t, 0) any number of ticks changes
    nothing. *)
Theorem Os_TickTimer_countdown TimerID k tm owner cur :
  Timers k !! TimerID = Some tm ->
  is_u8 (Value tm) ->
  is_u8 (Event tm) ->
  Tasks k !! TaskID tm = Some owner ->
  Tasks k !! CurrentTaskIndex k = Some cur ->
  (Value tm = 0 -> Os_TickTimer TimerID k = Some k) /\
  (Value tm > 1 ->
   Os_TickTimer TimerID k =
     Some (with_Timers (<[TimerID := set_Value (Value tm - 1) tm]> (Timers k)) k)) /\
  (Value tm = 1 ->
   Os_TickTimer TimerID k =
     Os_SetEvent (TaskID tm) (Event tm)
       (with_Timers (<[TimerID := set_Value 0 tm]> (Timers k)) k)) /\
  (exists k1 k3 k4 owner',
     Os_SetTimer TimerID 3 k = Some k1 /\
     run [OpTickTimer TimerID; OpTickTimer TimerID] k1 = Some k3 /\
     Tasks k3 = Tasks k /\
     Os_TickTimer TimerID k3 = Some k4 /\
     Tasks k4 !! TaskID tm = Some owner' /\
     Z.land (Events owner') (Event tm) = Event tm /\
     Value <$> Timers k4 !! TimerID = Some 0) /\
  (exists k0,
     Os_SetTimer TimerID 0 k = Some k0 /\
     forall n, run (replicate n (OpTickTimer TimerID)) k0 = Some k0).
Proof.
  intros Htm Hu He Ho Hc.
  assert (Hlen : (TimerID < length (Timers k))%nat) by (by eapply lookup_lt_Some).
  split; [by apply Os_TickTimer_inert|].
  split; [by apply Os_TickTimer_counts|].
  split; [by apply Os_TickTimer_expires|].
  split.
  - rewrite Os_SetTimer_eq, Htm. simpl.
    rewrite (alter_insert _ _ _ tm) by done.
    set (k1 := with_Timers (<[TimerID := set_Value 3 tm]> (Timers k)) k).
    assert (H1 : Timers k1 !! TimerID = Some (set_Value 3 tm))
      by (simpl; by rewrite list_lookup_insert_eq).
    set (k2 := with_Timers (<[TimerID := set_Value 2 tm]> (Timers k)) k).
    assert (E1 : Os_TickTimer TimerID k1 = Some k2).
    { rewrite (Os_TickTimer_counts TimerID k1 _ H1); simpl; [|unfold is_u8; lia|lia].
      unfold k2, k1, with_Timers. simpl. by rewrite list_insert_insert_eq. }
    assert (H2 : Timers k2 !! TimerID = Some (set_Value 2 tm))
      by (simpl; by rewrite list_lookup_insert_eq).
    set (k3 := with_Timers (<[TimerID := set_Value 1 tm]> (Timers k)) k).
    assert (E2 : Os_TickTimer TimerID k2 = Some k3).
    { rewrite (Os_TickTimer_counts TimerID k2 _ H2); simpl; [|unfold is_u8; lia|lia].
      unfold k3, k2, with_Timers. simpl. by rewrite list_insert_insert_eq. }
    assert (H3 : Timers k3 !! TimerID = Some (set_Value 1 tm))
      by (simpl; by rewrite list_lookup_insert_eq).
    destruct (Os_SetEvent_effect (TaskID tm) (Event tm)
                (with_Timers (<[TimerID := set_Value 0 tm]> (Timers k)) k) owner cur)
      as (k4 & owner' & E4 & Hl4 & Hev & _); [done..|].
    assert (E3 : Os_TickTimer TimerID k3 = Some k4).
    { rewrite (Os_TickTimer_expires TimerID k3 _ H3) by done. simpl.
      unfold k3, with_Timers. simpl. rewrite list_insert_insert_eq. exact E4. }
    exists k1, k3, k4, owner'. split; [done|]. split.
    { simpl. rewrite E1. simpl. rewrite E2. done. }
    split; [done|]. split; [done|]. split; [done|]. split; [done|].
    apply Os_SetEvent_frame in E4 as (_ & _ & -> & _). simpl.
    by rewrite list_lookup_insert_eq.
  - rewrite Os_SetTimer_eq, Htm. simpl. eexists. split; [done|].
    intros n. apply (run_ticks_inert TimerID _ (set_Value 0 tm)); [|done].
    simpl. rewrite list_lookup_alter_eq, Htm. done.
Qed.

Lemma Os_TickTimer_countdown_witness :
  exists k1 k3 k4 owner',
    Os_SetTimer 0 3 ap_boot = Some k1 /\
    run [OpTickTimer 0; OpTickTimer 0] k1 = Some k3 /\
    Tasks k3 = Tasks ap_boot /\
    Os_TickTimer 0 k3 = Some k4 /\
    Tasks k4 !! 1%nat = Some owner' /\
    Z.land (Events owner') 1 = 1 /\
    Value <$> Timers k4 !! 0%nat = Some 0.
Proof.
  apply (Os_TickTimer_countdown 0 ap_boot (mkTimer 0 1 1)
           (mkTask 0 TASK_STATE_READY 0 0 (Z.lor 32 (Z.lor 64 1)) 3)
           (mkTask 0 TASK_STATE_READY 0 0 0 0)).
  - reflexivity.
  - unfold is_u8. simpl. lia.
  - unfold is_u8. simpl. lia.
  - reflexivity.
  - reflexivity.
Defined.

(** ** WaitForEvents only grows *)





Lemma exec_current_in_range op k k' :
  exec op k = Some k' ->
  (CurrentTaskIndex k < length (Tasks k))%nat ->
  (CurrentTaskIndex k' < length (Tasks k'))%nat.
Proof.
  intros H Hc. destruct (decide (op = OpSchedule)) as [->|Hop].
  - simpl in H.
    destruct (Os_Scheduler_inv k k' H) as (next & cur & nx & _ & _ & Hnx & Hcases).
    apply lookup_lt_Some in Hnx.
    destruct Hcases as [(_ & ->) | [(_ & _ & ->) | (_ & _ & ->)]]; simpl;
      by rewrite ?length_insert.
  - destruct (exec_service op k k' Hop H) as [-> [-> | (j & f & _ & ->)]];
      by rewrite ?length_alter.
Qed.




(** * Further properties of the kernel services *)

(** ** What no service touches *)

Lemma Forall2_same_task_config_refl l : Forall2 same_task_config l l.
Proof. apply Forall_Forall2_diag, Forall_forall. by intros. Qed.

Lemma Forall2_same_timer_config_refl l : Forall2 same_timer_config l l.
Proof. apply Forall_Forall2_diag, Forall_forall. by intros. Qed.

Lemma same_task_config_alter f i l :
  (forall t, same_task_config t (f t)) ->
  Forall2 same_task_config l (alter f i l).
Proof.
  intros Hf. apply Forall2_alter_r; [apply Forall2_same_task_config_refl|].
  intros x y _ _ [Hr Hp]. destruct (Hf y) as [Hr' Hp']. split; congruence.
Qed.

Lemma same_timer_config_alter f i l :
  (forall t, same_timer_config t (f t)) ->
  Forall2 same_timer_config l (alter f i l).
Proof.
  intros Hf. apply Forall2_alter_r; [apply Forall2_same_timer_config_refl|].
  intros x y _ _ [Hr Hp]. destruct (Hf y) as [Hr' Hp']. split; congruence.
Qed.

Lemma same_task_config_trans l1 l2 l3 :
  Forall2 same_task_config l1 l2 -> Forall2 same_task_config l2 l3 ->
  Forall2 same_task_config l1 l3.
Proof.
  apply Forall2_trans. intros x y z [? ?] [? ?]. split; congruence.
Qed.

Lemma same_timer_config_trans l1 l2 l3 :
  Forall2 same_timer_config l1 l2 -> Forall2 same_timer_config l2 l3 ->
  Forall2 same_timer_config l1 l3.
Proof.
  apply Forall2_trans. intros x y z [? ?] [? ?]. split; congruence.
Qed.

Lemma deliver_same_config m t : same_task_config t (deliver m t).
Proof. unfold deliver, same_task_config. simpl. by case_decide. Qed.

Lemma exec_configuration op k k' :
  exec op k = Some k' ->
  SREG_I k' = SREG_I k /\ NrTasks k' = NrTasks k /\
  Forall2 same_task_config (Tasks k) (Tasks k') /\
  Forall2 same_timer_config (Timers k) (Timers k').
Proof.
  intros H.
  pose proof (Forall2_same_task_config_refl (Tasks k)) as HT.
  pose proof (Forall2_same_timer_config_refl (Timers k)) as HM.
  destruct op as [|t m|m| |m|m|m|t v|t]; simpl in H.
  - rewrite Os_Scheduler_eq in H.
    destruct (Os_Scheduler_pick k) as [next|]; simpl in H; [|done].
    destruct (Tasks k !! CurrentTaskIndex k) as [cur|]; simpl in H; [|done].
    destruct (Tasks k !! next) as [nx|]; simpl in H; [|done].
    assert (Hd : Forall2 same_task_config (Tasks k)
                   (alter (set_State TASK_STATE_RUNNING) next (Tasks k)))
      by (by apply same_task_config_alter).
    destruct (State cur); try (injection H as <-; by simpl).
    case_decide; injection H as <-; simpl; [|done].
    repeat (split; [done|]). split; [|done].
    eapply same_task_config_trans; by apply same_task_config_alter.
  - apply Os_SetEvent_frame in H as (-> & -> & -> & _ & _ & _ & ->).
    repeat (split; [done|]). split; [|done].
    apply same_task_config_alter, deliver_same_config.
  - rewrite Os_ClearEvents_eq in H.
    destruct (Tasks k !! CurrentTaskIndex k); simpl in H; [|done].
    injection H as <-. simpl. repeat (split; [done|]). split; [|done].
    by apply same_task_config_alter.
  - rewrite Os_GetEvents_eq in H.
    destruct (Tasks k !! CurrentTaskIndex k); simpl in H; [|done].
    by injection H as <-.
  - rewrite Os_WaitEvents_eq in H.
    destruct (Tasks k !! CurrentTaskIndex k); simpl in H; [|done].
    case_decide; injection H as <-; simpl; repeat (split; [done|]);
      (split; [|done]); by apply same_task_config_alter.
  - rewrite Os_GetResources_eq in H. by injection H as <-.
  - rewrite Os_ReleaseResources_eq in H. by injection H as <-.
  - rewrite Os_SetTimer_eq in H.
    destruct (Timers k !! t); simpl in H; [|done]. injection H as <-. simpl.
    repeat (split; [done|]). by apply same_timer_config_alter.
  - rewrite Os_TickTimer_eq in H.
    destruct (Timers k !! t) as [tm|]; simpl in H; [|done].
    assert (Hd : Forall2 same_timer_config (Timers k) (alter tick t (Timers k)))
      by (by apply same_timer_config_alter).
    case_decide; [|by injection H as <-].
    case_decide; [|by injection H as <-].
    apply Os_SetEvent_frame in H as (-> & -> & -> & _ & _ & _ & ->). simpl.
    repeat (split; [done|]). split; [|done].
    apply same_task_config_alter, deliver_same_config.
Qed.

(** X1. Whatever sequence of kernel operations runs, it leaves the global
    interrupt flag as it found it and never changes NrTasks, the sizes of the
    two tables, the priority and the required resources of a task, or the
    owner and the event of a timer. *)
Theorem configuration_fixed ops : forall k k',
  run ops k = Some k' ->
  SREG_I k' = SREG_I k /\ NrTasks k' = NrTasks k /\
  Forall2 same_task_config (Tasks k) (Tasks k') /\
  Forall2 same_timer_config (Timers k) (Timers k').
Proof.
  induction ops as [|op ops IH]; intros k k'; simpl.
  - intros [= <-]. repeat (split; [done|]).
    split; [apply Forall2_same_task_config_refl|apply Forall2_same_timer_config_refl].
  - destruct (exec op k) as [k1|] eqn:H1; simpl; [|done].
    intros Hr. destruct (exec_configuration op k k1 H1) as (HI & HN & HT & HM).
    destruct (IH k1 k' Hr) as (HI' & HN' & HT' & HM').
    split; [congruence|]. split; [congruence|]. split.
    + by eapply same_task_config_trans.
    + by eapply same_timer_config_trans.
Qed.

Lemma configuration_fixed_witness :
  exists k',
    run ap_trace ap_boot = Some k' /\
    SREG_I k' = SREG_I ap_boot /\ NrTasks k' = NrTasks ap_boot /\
    Forall2 same_task_config (Tasks ap_boot) (Tasks k') /\
    Forall2 same_timer_config (Timers ap_boot) (Timers k').
Proof.
  eexists. split; [vm_compute; reflexivity|].
  apply (configuration_fixed ap_trace ap_boot). vm_compute; reflexivity.
Defined.

(** ** Events of the current task *)



Lemma Os_ClearEvents_undefined Mask k :
  (length (Tasks k) <= CurrentTaskIndex k)%nat -> Os_ClearEvents Mask k = None.
Proof.
  intros H. rewrite Os_ClearEvents_eq. by rewrite (lookup_ge_None_2 _ _ H).
Qed.

(** X3. The current task posting events m to itself and then clearing m ends
    with its events equal to [events & ~m], which is the value before the two
    calls exactly when no event of m was set before; and the posting has made
    the task READY if it met its WaitForEvents, which the clearing does not
    undo. *)
Theorem Os_SetEvent_ClearEvents Mask k t :
  Tasks k !! CurrentTaskIndex k = Some t ->
  is_u8 (Events t) ->
  is_u8 Mask ->
  exists k1 k2 t2,
    Os_SetEvent (CurrentTaskIndex k) Mask k = Some k1 /\
    Os_ClearEvents Mask k1 = Some k2 /\
    Tasks k2 !! CurrentTaskIndex k = Some t2 /\
    Events t2 = Z.land (Events t) (Z.lnot Mask) /\
    (Events t2 = Events t <-> Z.land (Events t) Mask = 0) /\
    State t2 = State (deliver Mask t) /\
    (Z.land (WaitForEvents t) (Z.lor (Events t) Mask) <> 0 ->
     State t2 = TASK_STATE_READY).
Proof.
  intros Ht Hu Hm.
  destruct (Os_SetEvent_effect (CurrentTaskIndex k) Mask k t t Hm Ht Ht)
    as (k1 & t1 & E1 & Hl1 & _).
  pose proof (Os_SetEvent_frame _ _ _ _ E1) as (HT & _ & _ & _ & Hc & _).
  assert (Ht1 : t1 = deliver Mask t).
  { rewrite HT, list_lookup_alter_eq, Ht in Hl1. simpl in Hl1. by injection Hl1. }
  destruct (deliver_fields Mask t) as (Hev & Hw & _ & Hready & _).
  rewrite wrap8_lor in Hev, Hready by done.
  assert (E2 : Os_ClearEvents Mask k1 =
                 Some (with_Tasks (alter (clear Mask) (CurrentTaskIndex k) (Tasks k1)) k1)).
  { rewrite Os_ClearEvents_eq, Hc, Hl1. done. }
  exists k1, (with_Tasks (alter (clear Mask) (CurrentTaskIndex k) (Tasks k1)) k1),
         (clear Mask t1).
  split; [done|]. split; [done|]. simpl.
  rewrite list_lookup_alter_eq, Hl1. simpl. split; [done|].
  assert (He : wrap8 (Z.land (Events t1) (Z.lnot Mask)) = Z.land (Events t) (Z.lnot Mask)).
  { rewrite Ht1, Hev. rewrite wrap8_clear by (by apply is_u8_lor).
    apply land_lor_lnot. }
  rewrite He. split; [done|]. split; [apply land_lnot_id|].
  rewrite Ht1. split; [done|]. apply Hready.
Qed.

Lemma Os_SetEvent_ClearEvents_witness :
  exists k1 k2 t2,
    Os_SetEvent 1 2 running_with_mask = Some k1 /\
    Os_ClearEvents 2 k1 = Some k2 /\
    Tasks k2 !! 1%nat = Some t2 /\
    Events t2 = Z.land 1 (Z.lnot 2) /\
    (Events t2 = 1 <-> Z.land 1 2 = 0) /\
    State t2 = State (deliver 2 (mkTask 0 TASK_STATE_RUNNING 1 1 0 1)) /\
    (Z.land 1 (Z.lor 1 2) <> 0 -> State t2 = TASK_STATE_READY).
Proof.
  apply (Os_SetEvent_ClearEvents 2 running_with_mask (mkTask 0 TASK_STATE_RUNNING 1 1 0 1)).
  - reflexivity.
  - unfold is_u8. simpl. lia.
  - unfold is_u8. lia.
Defined.

(** X4. Events coalesce: after the current task has been posted m1 and then
    m2, Os_WaitEvents(m1 | m2) returns at once (unless both masks are empty)
    without changing the state of the task, and Os_GetEvents then reports
    every bit of m1 and of m2. *)
Theorem events_coalesce m1 m2 k t :
  Tasks k !! CurrentTaskIndex k = Some t ->
  is_u8 m1 -> is_u8 m2 ->
  Z.lor m1 m2 <> 0 ->
  exists k1 k2 k3 t2 t3 events,
    Os_SetEvent (CurrentTaskIndex k) m1 k = Some k1 /\
    Os_SetEvent (CurrentTaskIndex k) m2 k1 = Some k2 /\
    Tasks k2 !! CurrentTaskIndex k = Some t2 /\
    Os_WaitEvents (Z.lor m1 m2) k2 = Some (k3, WaitReturns) /\
    Tasks k3 !! CurrentTaskIndex k = Some t3 /\
    State t3 = State t2 /\
    Os_GetEvents k3 = Some (k3, events) /\
    Z.land events (Z.lor m1 m2) = Z.lor m1 m2.
Proof.
  intros Ht H1 H2 Hne.
  destruct (Os_SetEvent_effect (CurrentTaskIndex k) m1 k t t H1 Ht Ht)
    as (k1 & t1 & E1 & Hl1 & Hin1 & _).
  pose proof (Os_SetEvent_frame _ _ _ _ E1) as (_ & _ & _ & _ & Hc1 & _).
  rewrite <- Hc1 in Hl1.
  destruct (Os_SetEvent_effect (CurrentTaskIndex k1) m2 k1 t1 t1 H2 Hl1 Hl1)
    as (k2 & t2 & E2 & Hl2 & Hin2 & _).
  pose proof (Os_SetEvent_frame _ _ _ _ E2) as (HT2 & _ & _ & _ & Hc2 & _).
  assert (Hev2 : Events t2 = wrap8 (Z.lor (Events t1) m2)).
  { rewrite HT2, list_lookup_alter_eq, Hl1 in Hl2. simpl in Hl2.
    injection Hl2 as <-. apply deliver_fields. }
  assert (Hin : Z.land (Events t2) (Z.lor m1 m2) = Z.lor m1 m2).
  { rewrite Hev2. clear - Hin1 H1 H2.
    apply Z.bits_inj'; intros n Hn.
    apply (f_equal (fun z => Z.testbit z n)) in Hin1.
    rewrite wrap8_land. rewrite Z.land_spec in Hin1.
    rewrite !Z.land_spec, !Z.lor_spec, testbit_255 by done.
    destruct (Z.ltb_spec n 8).
    - destruct (Z.testbit (Events t1) n), (Z.testbit m1 n), (Z.testbit m2 n);
        simpl in *; congruence.
    - rewrite (is_u8_testbit m1 n H1), (is_u8_testbit m2 n H2) by lia.
      by rewrite !andb_false_r. }
  rewrite Hc1 in *.
  assert (E3 : Os_WaitEvents (Z.lor m1 m2) k2 =
                 Some (with_Tasks (alter (mark_wait (Z.lor m1 m2)) (CurrentTaskIndex k)
                                         (Tasks k2)) k2, WaitReturns)).
  { rewrite Os_WaitEvents_eq, Hc2, Hl2. simpl.
    rewrite decide_False; [done|]. by rewrite Hin. }
  exists k1, k2, (with_Tasks (alter (mark_wait (Z.lor m1 m2)) (CurrentTaskIndex k)
                                    (Tasks k2)) k2),
         t2, (mark_wait (Z.lor m1 m2) t2), (Events t2).
  split; [done|]. split; [done|]. split; [done|]. split; [done|]. simpl.
  rewrite list_lookup_alter_eq, Hl2. simpl. split; [done|]. split; [done|].
  rewrite Os_GetEvents_eq. simpl. rewrite Hc2, list_lookup_alter_eq, Hl2. simpl.
  done.
Qed.

Lemma events_coalesce_witness :
  exists k1 k2 k3 t2 t3 events,
    Os_SetEvent 1 1 (dispatch 1 (mkTask 0 TASK_STATE_READY 0 0 0 1)
                       (Os_StartOS two_tasks 2 [])) = Some k1 /\
    Os_SetEvent 1 2 k1 = Some k2 /\
    Tasks k2 !! 1%nat = Some t2 /\
    Os_WaitEvents (Z.lor 1 2) k2 = Some (k3, WaitReturns) /\
    Tasks k3 !! 1%nat = Some t3 /\
    State t3 = State t2 /\
    Os_GetEvents k3 = Some (k3, events) /\
    Z.land events (Z.lor 1 2) = Z.lor 1 2.
Proof.
  apply (events_coalesce 1 2 (dispatch 1 (mkTask 0 TASK_STATE_READY 0 0 0 1)
                                (Os_StartOS two_tasks 2 []))
           (mkTask 0 TASK_STATE_RUNNING 0 0 0 1)).
  - reflexivity.
  - unfold is_u8. lia.
  - unfold is_u8. lia.
  - discriminate.
Defined.

(** ** Resources: the ceiling *)

Lemma bits_in_wrap8_lor m occ m' :
  is_u8 m -> bits_in m occ -> bits_in m (wrap8 (Z.lor occ m')).
Proof.
  unfold bits_in. intros Hm Hin. apply Z.bits_inj'; intros n Hn.
  apply (f_equal (fun z => Z.testbit z n)) in Hin.
  rewrite Z.land_spec in Hin.
  rewrite wrap8_land, !Z.land_spec, Z.lor_spec, testbit_255 by done.
  destruct (Z.ltb_spec n 8).
  - destruct (Z.testbit m n), (Z.testbit occ n), (Z.testbit m' n);
      simpl in *; congruence.
  - by rewrite (is_u8_testbit m n Hm) by lia.
Qed.

Lemma bits_in_wrap8_clear m occ m' :
  is_u8 m -> bits_in m occ -> Z.land m m' = 0 ->
  bits_in m (wrap8 (Z.land occ (Z.lnot m'))).
Proof.
  unfold bits_in. intros Hm Hin Hd. apply Z.bits_inj'; intros n Hn.
  apply (f_equal (fun z => Z.testbit z n)) in Hin, Hd.
  rewrite Z.land_spec in Hin, Hd. rewrite Z.bits_0 in Hd.
  rewrite wrap8_land, !Z.land_spec, Z.lnot_spec, testbit_255 by done.
  destruct (Z.ltb_spec n 8).
  - destruct (Z.testbit m n), (Z.testbit occ n), (Z.testbit m' n);
      simpl in *; congruence.
  - by rewrite (is_u8_testbit m n Hm) by lia.
Qed.

Lemma exec_keeps_resources m op k k' :
  is_u8 m ->
  keeps_resources m op ->
  exec op k = Some k' ->
  bits_in m (ResourcesOccupied k) ->
  bits_in m (ResourcesOccupied k').
Proof.
  intros Hm Hk H Hin.
  destruct op as [|t e|e| |e|r|r|t v|t]; simpl in H, Hk.
  - destruct (Os_Scheduler_inv k k' H) as (? & ? & ? & _ & _ & _ & Hc).
    by destruct Hc as [(_ & ->) | [(_ & _ & ->) | (_ & _ & ->)]].
  - apply Os_SetEvent_frame in H as (_ & _ & _ & _ & _ & -> & _). done.
  - rewrite Os_ClearEvents_eq in H.
    destruct (Tasks k !! CurrentTaskIndex k); simpl in H; [|done].
    by injection H as <-.
  - rewrite Os_GetEvents_eq in H.
    destruct (Tasks k !! CurrentTaskIndex k); simpl in H; [|done].
    by injection H as <-.
  - rewrite Os_WaitEvents_eq in H.
    destruct (Tasks k !! CurrentTaskIndex k); simpl in H; [|done].
    by case_decide; injection H as <-.
  - rewrite Os_GetResources_eq in H. injection H as <-. simpl.
    by apply bits_in_wrap8_lor.
  - rewrite Os_ReleaseResources_eq in H. injection H as <-. simpl.
    by apply bits_in_wrap8_clear.
  - rewrite Os_SetTimer_eq in H.
    destruct (Timers k !! t); simpl in H; [|done]. by injection H as <-.
  - rewrite Os_TickTimer_eq in H.
    destruct (Timers k !! t) as [tm|]; simpl in H; [|done].
    case_decide; [|by injection H as <-].
    case_decide; [|by injection H as <-].
    apply Os_SetEvent_frame in H as (_ & _ & _ & _ & _ & -> & _). done.
Qed.

Lemma run_keeps_resources m ops : forall k k',
  is_u8 m ->
  Forall (keeps_resources m) ops ->
  run ops k = Some k' ->
  bits_in m (ResourcesOccupied k) ->
  bits_in m (ResourcesOccupied k').
Proof.
  induction ops as [|op ops IH]; intros k k' Hm Hk; simpl.
  - by intros [= <-].
  - destruct (exec op k) as [k1|] eqn:H1; simpl; [|done].
    inversion Hk as [|? ? Hop Hops]; subst.
    intros Hr Hin. apply (IH k1 k' Hm Hops Hr).
    by eapply exec_keeps_resources.
Qed.

(** X5. The ceiling holds a resource for its taker: from Os_GetResources(m)
    on, through any kernel operations that release no resource of m, every
    task the scheduler newly dispatches, task 0 excepted, requires no
    resource of m. *)
Theorem ceiling_excludes m ops k k1 k2 k3 t :
  is_u8 m ->
  Os_GetResources m k = Some k1 ->
  Forall (keeps_resources m) ops ->
  run ops k1 = Some k2 ->
  Os_Scheduler k2 = Some k3 ->
  k3 <> k2 ->
  CurrentTaskIndex k3 <> 0%nat ->
  Tasks k3 !! CurrentTaskIndex k3 = Some t ->
  Z.land (RequiredResources t) m = 0.
Proof.
  intros Hm Hget Hops Hrun Hs Hne H0 Ht.
  assert (Hin1 : bits_in m (ResourcesOccupied k1)).
  { rewrite Os_GetResources_eq in Hget. injection Hget as <-. simpl.
    unfold bits_in. rewrite Z.land_comm. by apply wrap8_lor_has. }
  pose proof (run_keeps_resources m ops k1 k2 Hm Hops Hrun Hin1) as Hin2.
  destruct (Os_Scheduler_inv k2 k3 Hs) as (next & cur & nx & Hp & Hcur & Hnx & Hc).
  assert (Hlen : (next < length (Tasks k2))%nat) by (by eapply lookup_lt_Some).
  assert (Hk3 : CurrentTaskIndex k3 = next /\
                RequiredResources t = RequiredResources nx).
  { destruct Hc as [(_ & ->) | [(_ & _ & ->) | (_ & _ & ->)]]; [| |done];
      simpl in *; (split; [done|]);
      rewrite list_lookup_insert_eq in Ht by (by rewrite ?length_insert);
      by injection Ht as <-. }
  destruct Hk3 as [Hn ->]. rewrite Hn in H0.
  destruct (pick_zero_or_candidate k2 next Hp) as [->|(x & Hx & _ & Hfree)]; [done|].
  rewrite Hnx in Hx. injection Hx as <-.
  unfold bits_in in Hin2. apply Z.bits_inj'; intros n Hn'.
  apply (f_equal (fun z => Z.testbit z n)) in Hin2, Hfree.
  rewrite Z.land_spec in Hin2, Hfree. rewrite Z.bits_0 in Hfree.
  rewrite Z.land_spec, Z.bits_0.
  destruct (Z.testbit (RequiredResources nx) n), (Z.testbit m n),
           (Z.testbit (ResourcesOccupied k2) n); simpl in *; congruence.
Qed.

Lemma ceiling_excludes_witness :
  exists k1 k2 k3 t,
    Os_GetResources 32 ctrl_running = Some k1 /\
    run [OpSetEvent 1 1; OpSetEvent 2 4] k1 = Some k2 /\
    Os_Scheduler k2 = Some k3 /\
    CurrentTaskIndex k3 = 2%nat /\
    Tasks k3 !! CurrentTaskIndex k3 = Some t /\
    Z.land (RequiredResources t) 32 = 0.
Proof.
  eexists _, _, _, _.
  split; [vm_compute; reflexivity|]. split; [vm_compute; reflexivity|].
  split; [vm_compute; reflexivity|]. split; [vm_compute; reflexivity|].
  split; [vm_compute; reflexivity|].
  eapply (ceiling_excludes 32 [OpSetEvent 1 1; OpSetEvent 2 4] ctrl_running).
  - unfold is_u8. lia.
  - vm_compute; reflexivity.
  - repeat constructor.
  - vm_compute; reflexivity.
  - vm_compute; reflexivity.
  - vm_compute. discriminate.
  - vm_compute. discriminate.
  - vm_compute; reflexivity.
Defined.

(** ** The current task *)

Lemma exec_service_CurrentTask op k k' :
  op <> OpSchedule -> exec op k = Some k' -> CurrentTask k' = CurrentTask k.
Proof.
  intros Hop H. destruct op as [|t m|m| |m|m|m|t v|t]; simpl in H; [done|..].
  - by apply Os_SetEvent_frame in H as (_ & _ & _ & -> & _).
  - rewrite Os_ClearEvents_eq in H.
    destruct (Tasks k !! CurrentTaskIndex k); simpl in H; [|done].
    by injection H as <-.
  - rewrite Os_GetEvents_eq in H.
    destruct (Tasks k !! CurrentTaskIndex k); simpl in H; [|done].
    by injection H as <-.
  - rewrite Os_WaitEvents_eq in H.
    destruct (Tasks k !! CurrentTaskIndex k); simpl in H; [|done].
    by case_decide; injection H as <-.
  - rewrite Os_GetResources_eq in H. by injection H as <-.
  - rewrite Os_ReleaseResources_eq in H. by injection H as <-.
  - rewrite Os_SetTimer_eq in H.
    destruct (Timers k !! t); simpl in H; [|done]. by injection H as <-.
  - rewrite Os_TickTimer_eq in H.
    destruct (Timers k !! t) as [tm|]; simpl in H; [|done].
    case_decide; [|by injection H as <-].
    case_decide; [|by injection H as <-].
    by apply Os_SetEvent_frame in H as (_ & _ & _ & -> & _).
Qed.

Lemma exec_service_none_running op k k' :
  op <> OpSchedule -> exec op k = Some k' -> none_running k -> none_running k'.
Proof.
  intros Hop H Hnone.
  destruct (exec_service op k k' Hop H) as [_ [Ht | (j & f & Hw & Ht)]];
    unfold none_running; rewrite Ht; [done|].
  intros i t. rewrite list_lookup_alter. case_decide; [|by apply Hnone].
  subst j. destruct (Tasks k !! i) as [t0|] eqn:Hl; simpl; [|done].
  intros [= <-]. pose proof (Hnone i t0 Hl).
  destruct (service_write_State k op i f t0 Hw) as [He | [He | He]]; congruence.
Qed.

Lemma exec_current_agrees op k k' :
  exec op k = Some k' -> current_agrees k -> current_agrees k'.
Proof.
  intros H Hinv. destruct (decide (op = OpSchedule)) as [->|Hop].
  - simpl in H.
    destruct (Os_Scheduler_inv k k' H) as (? & ? & ? & _ & _ & _ & Hc).
    destruct Hc as [(_ & ->) | [(_ & _ & ->) | (_ & _ & ->)]]; [by left|by left|done].
  - pose proof (exec_service_CurrentTask op k k' Hop H) as Hp.
    destruct (exec_service op k k' Hop H) as [Hc _].
    destruct Hinv as [Hl | (Hm & H0 & Hnone)].
    + left. congruence.
    + right. split; [congruence|]. split; [congruence|].
      by eapply exec_service_none_running.
Qed.

Lemma run_current_agrees ops : forall k k',
  run ops k = Some k' -> current_agrees k -> current_agrees k'.
Proof.
  induction ops as [|op ops IH]; intros k k'; simpl.
  - by intros [= <-].
  - destruct (exec op k) as [k1|] eqn:H1; simpl; [|done].
    intros Hr Hinv. apply (IH k1 k' Hr). by eapply exec_current_agrees.
Qed.

Lemma boot_current_agrees tasks n timers :
  initial_tasks tasks -> current_agrees (Os_StartOS tasks n timers).
Proof.
  intros Hinit. right. split; [done|]. split; [done|].
  intros i t Hl. simpl in Hl.
  apply (proj1 (Forall_lookup _ _) Hinit) in Hl as [Hr _]. congruence.
Qed.

Lemma boot_running_is_current tasks n timers :
  initial_tasks tasks -> running_is_current (Os_StartOS tasks n timers).
Proof.
  intros Hinit i t Hl Hs. simpl in Hl.
  apply (proj1 (Forall_lookup _ _) Hinit) in Hl as [Hr _]. congruence.
Qed.

(** X6. In every state reached from start-up, the pointer CurrentTask, which
    the context switch uses, and CurrentTaskIndex, which the services use,
    designate the same descriptor; or no task has been dispatched yet, and
    then CurrentTask is still the boot context, the services act on task 0
    and no descriptor is RUNNING. *)
Theorem current_task_agrees tasks n timers ops k :
  initial_tasks tasks ->
  run ops (Os_StartOS tasks n timers) = Some k ->
  CurrentTask k = TaskSlot (CurrentTaskIndex k) \/
  (CurrentTask k = MainContext /\ CurrentTaskIndex k = 0%nat /\
   forall i t, Tasks k !! i = Some t -> State t <> TASK_STATE_RUNNING).
Proof.
  intros Hinit Hrun.
  apply (run_current_agrees ops _ _ Hrun). by apply boot_current_agrees.
Qed.

Lemma current_task_agrees_witness :
  exists k,
    run ap_trace ap_boot = Some k /\
    (CurrentTask k = TaskSlot (CurrentTaskIndex k) \/
     (CurrentTask k = MainContext /\ CurrentTaskIndex k = 0%nat /\
      forall i t, Tasks k !! i = Some t -> State t <> TASK_STATE_RUNNING)).
Proof.
  eexists. split; [vm_compute; reflexivity|].
  apply (current_task_agrees ap_Tasks 4 ap_Timers ap_trace).
  - repeat constructor.
  - vm_compute; reflexivity.
Defined.

(** X7. In a state reached from start-up, a scheduler run ends with exactly
    one RUNNING descriptor: the one at CurrentTaskIndex, which is also the
    one CurrentTask points to. *)
Theorem scheduled_one_running tasks n timers ops k k' :
  initial_tasks tasks ->
  run ops (Os_StartOS tasks n timers) = Some k ->
  Os_Scheduler k = Some k' ->
  CurrentTask k' = TaskSlot (CurrentTaskIndex k') /\
  state_of k' (CurrentTaskIndex k') = Some TASK_STATE_RUNNING /\
  forall i t, Tasks k' !! i = Some t -> State t = TASK_STATE_RUNNING ->
              i = CurrentTaskIndex k'.
Proof.
  intros Hinit Hrun Hs.
  pose proof (run_running_is_current ops _ _ Hrun
                (boot_running_is_current tasks n timers Hinit)) as Hric.
  pose proof (run_current_agrees ops _ _ Hrun
                (boot_current_agrees tasks n timers Hinit)) as Hagree.
  split; [|split].
  - destruct (Os_Scheduler_inv k k' Hs) as (next & cur & nx & _ & Hcur & _ & Hc).
    destruct Hc as [(_ & ->) | [(_ & _ & ->) | (Hr & _ & ->)]]; [done|done|].
    destruct Hagree as [Hl | (_ & _ & Hnone)]; [done|].
    by destruct (Hnone _ _ Hcur).
  - destruct (Os_Scheduler_inv k k' Hs) as (next & cur & nx & _ & Hcur & Hnx & Hc).
    assert (Hlen : (next < length (Tasks k))%nat) by (by eapply lookup_lt_Some).
    unfold state_of.
    destruct Hc as [(_ & ->) | [(_ & _ & ->) | (Hr & _ & ->)]]; simpl.
    + by rewrite list_lookup_insert_eq.
    + by rewrite list_lookup_insert_eq by (by rewrite length_insert).
    + rewrite Hcur. simpl. by rewrite Hr.
  - by apply (exec_running_is_current OpSchedule k k').
Qed.

Lemma scheduled_one_running_witness :
  exists k k',
    run [OpSchedule; OpSetTimer 0 2; OpWaitEvents 1] ap_boot = Some k /\
    Os_Scheduler k = Some k' /\
    CurrentTaskIndex k' = 2%nat /\
    CurrentTask k' = TaskSlot (CurrentTaskIndex k') /\
    state_of k' (CurrentTaskIndex k') = Some TASK_STATE_RUNNING /\
    forall i t, Tasks k' !! i = Some t -> State t = TASK_STATE_RUNNING ->
                i = CurrentTaskIndex k'.
Proof.
  eexists _, _. split; [vm_compute; reflexivity|].
  split; [vm_compute; reflexivity|]. split; [vm_compute; reflexivity|].
  eapply (scheduled_one_running ap_Tasks 4 ap_Timers
            [OpSchedule; OpSetTimer 0 2; OpWaitEvents 1]).
  - repeat constructor.
  - vm_compute; reflexivity.
  - vm_compute; reflexivity.
Defined.

(** ** Running the scheduler again *)

Lemma rescheduling_settles k T' next nx :
  NrTasks k = length (Tasks k) ->
  idle_convention k ->
  picked (Tasks k) (ResourcesOccupied k) next ->
  Tasks k !! next = Some nx ->
  length T' = length (Tasks k) ->
  T' !! next = Some (set_State TASK_STATE_RUNNING nx) ->
  (forall i t', i <> next -> T' !! i = Some t' ->
     Tasks k !! i = Some t' \/ Priority t' < Priority nx) ->
  Os_Scheduler (with_Current next (with_Tasks T' k))
    = Some (with_Current next (with_Tasks T' k)).
Proof.
  intros Hn [Hidle Hnonneg] Hpicked Hnx Hlen Hnext Hother.
  set (k' := with_Current next (with_Tasks T' k)).
  destruct (Os_Scheduler_pick_picked k') as (next' & Hp' & Hpicked').
  { simpl. congruence. }
  rewrite Os_Scheduler_eq, Hp'. simpl. rewrite Hnext. simpl.
  assert (is_Some (T' !! next')) as [nx' Hnx'].
  { destruct Hpicked' as [(-> & _) | (t & Ht & _)]; [|by eexists].
    apply lookup_lt_is_Some. rewrite Hlen.
    apply lookup_lt_Some in Hnx. lia. }
  rewrite Hnx'. simpl.
  rewrite decide_False; [done|].
  pose proof (Hnonneg _ _ Hnx) as Hnx0.
  destruct (decide (next' = next)) as [->|Hne].
  { rewrite Hnext in Hnx'. injection Hnx' as <-. simpl. lia. }
  destruct (Hother next' nx' Hne Hnx') as [Hold | Hlt]; [|lia].
  simpl in Hpicked'.
  destruct Hpicked' as [(-> & _) | (t & Ht & Hc & Hpos & _)].
  - rewrite (Hidle _ Hold). lia.
  - rewrite Hnx' in Ht. injection Ht as <-.
    destruct Hpicked as [(_ & Hzero) | (t & Ht & _ & _ & Hmax & _)].
    + specialize (Hzero _ _ Hold Hc). lia.
    + rewrite Hnx in Ht. injection Ht as <-.
      specialize (Hmax _ _ Hold Hc). lia.
Qed.

(** X8. Under the idle-task convention (task 0 has priority 0, no priority
    is negative) a second scheduler run right after the first changes
    nothing: the task Os_Scheduler has dispatched is not preempted until a
    service call intervenes. *)
Theorem Os_Scheduler_idempotent k k' :
  well_formed k ->
  idle_convention k ->
  Os_Scheduler k = Some k' ->
  Os_Scheduler k' = Some k'.
Proof.
  intros [Hn Hcl] Hconv H.
  destruct (Os_Scheduler_inv k k' H) as (next & cur & nx & Hp & Hcur & Hnx & Hc).
  destruct (Os_Scheduler_pick_picked k Hn) as (next0 & Hp0 & Hpicked).
  rewrite Hp in Hp0. injection Hp0 as <-.
  assert (Hlen : (next < length (Tasks k))%nat) by (by eapply lookup_lt_Some).
  destruct Hc as [(_ & ->) | [(_ & Hgt & ->) | (_ & _ & ->)]]; [| |done].
  - apply (rescheduling_settles k _ next nx); try done.
    + by rewrite length_insert.
    + by rewrite list_lookup_insert_eq.
    + intros i t' Hi Hl. left. by rewrite list_lookup_insert_ne in Hl.
  - apply (rescheduling_settles k _ next nx); try done.
    + by rewrite !length_insert.
    + by rewrite list_lookup_insert_eq by (by rewrite length_insert).
    + intros i t' Hi Hl. rewrite list_lookup_insert_ne in Hl by done.
      destruct (decide (i = CurrentTaskIndex k)) as [->|Hne].
      * rewrite list_lookup_insert_eq in Hl by done. injection Hl as <-.
        right. simpl. lia.
      * left. by rewrite list_lookup_insert_ne in Hl.
Qed.

Lemma Os_Scheduler_idempotent_witness :
  exists k',
    Os_Scheduler ap_boot = Some k' /\ CurrentTaskIndex k' = 1%nat /\
    Os_Scheduler k' = Some k'.
Proof.
  eexists. split; [vm_compute; reflexivity|]. split; [reflexivity|].
  apply (Os_Scheduler_idempotent ap_boot).
  - split; [reflexivity | simpl; lia].
  - split.
    + intros t0 [= <-]. reflexivity.
    + intros [|[|[|[|i]]]] t Hl; simpl in Hl; try discriminate;
        injection Hl as <-; simpl; lia.
  - vm_compute; reflexivity.
Defined.

(** ** Waking a task *)

(** X9. Wake-up: let task t await an event of m, have its resources free, a
    priority above 0 and above that of the current task and of every other
    READY task with free resources.  Then Os_SetEvent(t, m) makes it READY,
    raises the forced-reschedule signal unless t is the current task itself,
    and the scheduler run that follows dispatches t: it is RUNNING and
    current. *)
Theorem wake_dispatches TaskId Mask k t :
  well_formed k ->
  is_u8 Mask ->
  Tasks k !! TaskId = Some t ->
  Z.land (WaitForEvents t) (wrap8 (Z.lor (Events t) Mask)) <> 0 ->
  Z.land (RequiredResources t) (ResourcesOccupied k) = 0 ->
  Priority t > 0 ->
  (forall j tj, j <> TaskId -> Tasks k !! j = Some tj ->
     candidate (ResourcesOccupied k) tj \/ j = CurrentTaskIndex k ->
     Priority tj < Priority t) ->
  exists k1 k2,
    Os_SetEvent TaskId Mask k = Some k1 /\
    state_of k1 TaskId = Some TASK_STATE_READY /\
    (TaskId <> CurrentTaskIndex k -> force_raised k1) /\
    Os_Scheduler k1 = Some k2 /\
    CurrentTaskIndex k2 = TaskId /\
    CurrentTask k2 = TaskSlot TaskId /\
    state_of k2 TaskId = Some TASK_STATE_RUNNING.
Proof.
  intros [Hn Hcl] Hm Ht Hmatch Hfree Hpos Hhigh.
  destruct (lookup_lt_is_Some_2 _ _ Hcl) as [cur Hcur].
  destruct (Os_SetEvent_effect TaskId Mask k t cur Hm Ht Hcur)
    as (k1 & t1 & E1 & Hl1 & _ & Hw1 & Hready & _).
  pose proof (Os_SetEvent_frame _ _ _ _ E1) as (HT & HN & _ & _ & Hc & Hocc & _).
  assert (Ht1 : t1 = deliver Mask t).
  { rewrite HT, list_lookup_alter_eq, Ht in Hl1. simpl in Hl1. by injection Hl1. }
  destruct (deliver_fields Mask t) as (Hev & Hw & Hreq & Hrd & _).
  assert (Hs1 : State t1 = TASK_STATE_READY) by (rewrite Ht1; by apply Hrd).
  assert (Hp1 : Priority t1 = Priority t) by (rewrite Ht1; apply deliver_same_config).
  assert (Hr1 : RequiredResources t1 = RequiredResources t) by (by rewrite Ht1).
  assert (Hforce : TaskId <> CurrentTaskIndex k -> force_raised k1).
  { intros Hne. apply Hready; [by rewrite Hw1, Ht1, Hev|].
    assert (Priority cur < Priority t); [|lia].
    apply (Hhigh (CurrentTaskIndex k)); [done|done|by right]. }
  assert (Hother : forall j tj, j <> TaskId -> Tasks k1 !! j = Some tj ->
                                Tasks k !! j = Some tj).
  { intros j tj Hj. rewrite HT, list_lookup_alter_ne by done. done. }
  (* the scan of the new table settles on TaskId *)
  assert (Hn1 : NrTasks k1 = length (Tasks k1)).
  { rewrite HN, HT, length_alter. done. }
  destruct (Os_Scheduler_pick_picked k1 Hn1) as (next & Hp & Hpicked).
  assert (next = TaskId) as ->.
  { apply (picked_unique (Tasks k1) (ResourcesOccupied k1)); [done|].
    right. exists t1. split; [done|]. split; [split; congruence|].
    split; [lia|]. rewrite Hocc, Hp1. split.
    - intros j tj Hl Hcj. destruct (decide (j = TaskId)) as [->|Hj].
      + rewrite Hl1 in Hl. injection Hl as <-. lia.
      + assert (Priority tj < Priority t); [|lia].
        apply (Hhigh j); [done|by apply Hother|by left].
    - intros j tj Hlt Hl Hcj. apply (Hhigh j); [lia|apply Hother; [lia|done]|by left]. }
  assert (Hcl1 : (CurrentTaskIndex k1 < length (Tasks k1))%nat).
  { rewrite Hc, HT, length_alter. done. }
  destruct (Os_Scheduler_total k1 (conj Hn1 Hcl1)) as [k2 E2].
  destruct (Os_Scheduler_inv k1 k2 E2) as (next & cur1 & nx & Hp2 & Hcur1 & Hnx & Hcases).
  rewrite Hp in Hp2. injection Hp2 as <-. rewrite Hl1 in Hnx. injection Hnx as <-.
  assert (Hlen1 : (TaskId < length (Tasks k1))%nat) by (by eapply lookup_lt_Some).
  exists k1, k2. split; [done|]. split; [by unfold state_of; rewrite Hl1; simpl; f_equal|].
  split; [done|]. split; [done|]. unfold state_of.
  destruct Hcases as [(_ & ->) | [(_ & _ & ->) | (Hrun & Hle & ->)]]; simpl.
  - by rewrite list_lookup_insert_eq.
  - by rewrite list_lookup_insert_eq by (by rewrite length_insert).
  - exfalso. rewrite Hc in Hcur1.
    destruct (decide (CurrentTaskIndex k = TaskId)) as [Heq|Hne].
    + rewrite Heq, Hl1 in Hcur1. injection Hcur1 as <-. congruence.
    + apply Hle. rewrite Hp1.
      assert (Priority cur1 < Priority t); [|lia].
      apply (Hhigh (CurrentTaskIndex k)); [done|by apply Hother|by right].
Qed.

Lemma wake_dispatches_witness :
  exists k1 k2,
    Os_SetEvent 1 1 idle_running_waiter = Some k1 /\
    state_of k1 1 = Some TASK_STATE_READY /\
    (1%nat <> CurrentTaskIndex idle_running_waiter -> force_raised k1) /\
    Os_Scheduler k1 = Some k2 /\
    CurrentTaskIndex k2 = 1%nat /\
    CurrentTask k2 = TaskSlot 1 /\
    state_of k2 1 = Some TASK_STATE_RUNNING.
Proof.
  apply (wake_dispatches 1 1 idle_running_waiter (mkTask 0 TASK_STATE_WAITING 0 1 0 1)).
  - split; [reflexivity | simpl; lia].
  - unfold is_u8. lia.
  - reflexivity.
  - discriminate.
  - reflexivity.
  - simpl. lia.
  - intros [|[|j]] tj Hj Hl _; simpl in Hl; try discriminate; [|done].
    injection Hl as <-. simpl. lia.
Defined.

(** ** Counting a timer down *)

Lemma run_app ops1 : forall ops2 k k1,
  run ops1 k = Some k1 -> run (ops1 ++ ops2) k = run ops2 k1.
Proof.
  induction ops1 as [|op ops1 IH]; intros ops2 k k1; simpl.
  - by intros [= <-].
  - destruct (exec op k) as [k'|]; simpl; [|done]. apply IH.
Qed.

Lemma run_ticks_down TimerID j : forall k tm,
  Timers k !! TimerID = Some tm ->
  Value tm = Z.of_nat j + 1 ->
  Value tm < 256 ->
  run (replicate j (OpTickTimer TimerID)) k
    = Some (with_Timers (<[TimerID := set_Value 1 tm]> (Timers k)) k).
Proof.
  induction j as [|j IH]; intros k tm Htm Hv Hu; simpl.
  - f_equal. rewrite list_insert_id; [by destruct k|].
    rewrite Htm. f_equal. destruct tm. simpl in *. by rewrite Hv.
  - rewrite (Os_TickTimer_counts TimerID k tm Htm); [|unfold is_u8; lia|lia]. simpl.
    set (k1 := with_Timers _ k).
    assert (H1 : Timers k1 !! TimerID = Some (set_Value (Value tm - 1) tm)).
    { simpl. rewrite list_lookup_insert_eq; [done|]. by eapply lookup_lt_Some. }
    rewrite (IH k1 _ H1); simpl; [|lia|lia].
    unfold k1, with_Timers. simpl. by rewrite list_insert_insert_eq.
Qed.

(** X10. A timer armed with n (1 to 255) expires at the n-th tick and not
    before: the first n-1 ticks change nothing but the count, the n-th tick
    posts the event of the timer to its owner and leaves the count at 0, and
    from then on ticks change nothing. *)
Theorem Os_SetTimer_expires_at TimerID (n : nat) k tm owner cur :
  Timers k !! TimerID = Some tm ->
  Tasks k !! TaskID tm = Some owner ->
  Tasks k !! CurrentTaskIndex k = Some cur ->
  is_u8 (Event tm) ->
  (1 <= n <= 255)%nat ->
  exists k1 k2 k3 owner',
    Os_SetTimer TimerID (Z.of_nat n) k = Some k1 /\
    run (replicate (n - 1) (OpTickTimer TimerID)) k1 = Some k2 /\
    k2 = with_Timers (<[TimerID := set_Value 1 tm]> (Timers k)) k /\
    Os_TickTimer TimerID k2 = Some k3 /\
    Tasks k3 !! TaskID tm = Some owner' /\
    Z.land (Events owner') (Event tm) = Event tm /\
    Value <$> Timers k3 !! TimerID = Some 0 /\
    forall j, run (replicate j (OpTickTimer TimerID)) k3 = Some k3.
Proof.
  intros Htm Ho Hc He Hn.
  assert (Hlen : (TimerID < length (Timers k))%nat) by (by eapply lookup_lt_Some).
  rewrite Os_SetTimer_eq, Htm. simpl.
  rewrite (alter_insert _ _ _ tm) by done.
  set (k1 := with_Timers (<[TimerID := set_Value (Z.of_nat n) tm]> (Timers k)) k).
  set (k2 := with_Timers (<[TimerID := set_Value 1 tm]> (Timers k)) k).
  assert (H1 : Timers k1 !! TimerID = Some (set_Value (Z.of_nat n) tm))
    by (simpl; by rewrite list_lookup_insert_eq).
  assert (E2 : run (replicate (n - 1) (OpTickTimer TimerID)) k1 = Some k2).
  { rewrite (run_ticks_down TimerID (n - 1) k1 _ H1); simpl; [|lia|lia].
    unfold k2, k1, with_Timers. simpl. by rewrite list_insert_insert_eq. }
  assert (H2 : Timers k2 !! TimerID = Some (set_Value 1 tm))
    by (simpl; by rewrite list_lookup_insert_eq).
  destruct (Os_SetEvent_effect (TaskID tm) (Event tm)
              (with_Timers (<[TimerID := set_Value 0 tm]> (Timers k)) k) owner cur)
    as (k3 & owner' & E3 & Hl3 & Hev & _); [done..|].
  assert (E3' : Os_TickTimer TimerID k2 = Some k3).
  { rewrite (Os_TickTimer_expires TimerID k2 _ H2) by done. simpl.
    unfold k2, with_Timers. simpl. rewrite list_insert_insert_eq. exact E3. }
  assert (Hv3 : Timers k3 !! TimerID = Some (set_Value 0 tm)).
  { apply Os_SetEvent_frame in E3 as (_ & _ & -> & _). simpl.
    by rewrite list_lookup_insert_eq. }
  exists k1, k2, k3, owner'. repeat (split; [done|]).
  split; [by rewrite Hv3|].
  intros j. by apply (run_ticks_inert TimerID k3 (set_Value 0 tm)).
Qed.

Lemma Os_SetTimer_expires_at_witness :
  exists k1 k2 k3 owner',
    Os_SetTimer 0 (Z.of_nat 250) ap_boot = Some k1 /\
    run (replicate (250 - 1) (OpTickTimer 0)) k1 = Some k2 /\
    k2 = with_Timers (<[0%nat := set_Value 1 (mkTimer 0 1 1)]> (Timers ap_boot)) ap_boot /\
    Os_TickTimer 0 k2 = Some k3 /\
    Tasks k3 !! 1%nat = Some owner' /\
    Z.land (Events owner') 1 = 1 /\
    Value <$> Timers k3 !! 0%nat = Some 0 /\
    forall j, run (replicate j (OpTickTimer 0)) k3 = Some k3.
Proof.
  apply (Os_SetTimer_expires_at 0 250 ap_boot (mkTimer 0 1 1)
           (mkTask 0 TASK_STATE_READY 0 0 (Z.lor 32 (Z.lor 64 1)) 3)
           (mkTask 0 TASK_STATE_READY 0 0 0 0)).
  - reflexivity.
  - reflexivity.
  - reflexivity.
  - unfold is_u8. simpl. lia.
  - lia.
Defined.

(** * Properties of the hardware layer (uc.c) *)

(** ** Key presses are reported once *)

Lemma KeyPressed_eq Key h :
  is_u8 Key ->
  is_u8 (KeyPress h) ->
  KeyPressed Key h =
    (with_KeyPress (Z.land (KeyPress h) (Z.lnot Key)) h, Z.land Key (KeyPress h)).
Proof.
  intros Hk Hp.
  assert (H1 : wrap8 (Z.land Key (KeyPress h)) = Z.land Key (KeyPress h)) by u8_bits.
  assert (H2 : wrap8 (Z.lxor (KeyPress h) (Z.land Key (KeyPress h)))
               = Z.land (KeyPress h) (Z.lnot Key)).
  { apply Z.bits_inj'; intros n Hn.
    rewrite wrap8_land, !Z.land_spec, Z.lxor_spec, Z.land_spec, Z.lnot_spec,
      testbit_255 by done.
    destruct (Z.ltb_spec n 8).
    - by destruct (Z.testbit (KeyPress h) n), (Z.testbit Key n).
    - rewrite (is_u8_testbit _ n Hp), (is_u8_testbit _ n Hk) by lia. done. }
  unfold KeyPressed. by rewrite H1, H2.
Qed.

Lemma is_u8_land_l a b : is_u8 a -> is_u8 (Z.land a b).
Proof. intros Ha. apply is_u8_land. u8_bits. Qed.

(** X11. KeyPressed(Key) returns the keys of [Key] whose press is recorded
    in KeyPress and erases exactly those from KeyPress; asked again for the
    same keys it returns 0 and changes nothing. *)
Theorem KeyPressed_once Key h :
  is_u8 Key ->
  is_u8 (KeyPress h) ->
  KeyPressed Key h =
    (with_KeyPress (Z.land (KeyPress h) (Z.lnot Key)) h, Z.land Key (KeyPress h)) /\
  KeyPressed Key (fst (KeyPressed Key h)) = (fst (KeyPressed Key h), 0).
Proof.
  intros Hk Hp. pose proof (KeyPressed_eq Key h Hk Hp) as E.
  split; [done|]. rewrite E. simpl.
  rewrite KeyPressed_eq; simpl; [|done|by apply is_u8_land_l].
  f_equal.
  - unfold with_KeyPress. simpl. f_equal.
    apply Z.bits_inj'; intros n Hn.
    rewrite !Z.land_spec, Z.lnot_spec by done.
    by destruct (Z.testbit (KeyPress h) n), (Z.testbit Key n).
  - apply Z.bits_inj'; intros n Hn.
    rewrite !Z.land_spec, Z.lnot_spec, Z.bits_0 by done.
    by destruct (Z.testbit (KeyPress h) n), (Z.testbit Key n).
Qed.

Lemma KeyPressed_once_witness :
  KeyPressed 4 (with_KeyPress 12 hal_idle) =
    (with_KeyPress (Z.land (KeyPress (with_KeyPress 12 hal_idle)) (Z.lnot 4))
                   (with_KeyPress 12 hal_idle),
     Z.land 4 (KeyPress (with_KeyPress 12 hal_idle))) /\
  KeyPressed 4 (fst (KeyPressed 4 (with_KeyPress 12 hal_idle)))
    = (fst (KeyPressed 4 (with_KeyPress 12 hal_idle)), 0).
Proof.
  apply (KeyPressed_once 4 (with_KeyPress 12 hal_idle)); unfold is_u8; simpl; lia.
Defined.

(** ** Debouncing *)

(** One step of the debouncing, key by key. *)
Lemma debounce_bit PIND h n :
  0 <= n < 8 ->
  let differs := xorb (negb (Z.testbit PIND n)) (Z.testbit (KeyState h) n) in
  let c0 := negb (Z.testbit (Counter0 h) n && differs) in
  let c1 := xorb c0 (Z.testbit (Counter1 h) n && differs) in
  let toggle := differs && (c0 && c1) in
  Z.testbit (Counter0 (debounce PIND h)) n = c0 /\
  Z.testbit (Counter1 (debounce PIND h)) n = c1 /\
  Z.testbit (KeyState (debounce PIND h)) n = xorb (Z.testbit (KeyState h) n) toggle /\
  Z.testbit (KeyPress (debounce PIND h)) n =
    Z.testbit (KeyPress h) n || (xorb (Z.testbit (KeyState h) n) toggle && toggle).
Proof.
  intros Hn. unfold debounce. simpl. rewrite !wrap8_land.
  assert (H255 : Z.testbit 255 n = true).
  { rewrite testbit_255 by lia. apply Z.ltb_lt. lia. }
  repeat split;
    repeat first [ rewrite Z.land_spec | rewrite Z.lor_spec | rewrite Z.lxor_spec
                 | rewrite Z.lnot_spec by lia | rewrite H255 ];
    destruct (Z.testbit PIND n), (Z.testbit (KeyState h) n),
             (Z.testbit (Counter0 h) n), (Z.testbit (Counter1 h) n),
             (Z.testbit (KeyPress h) n); reflexivity.
Qed.

(** The vertical counter of one key over single and over four samples. *)
Lemma debounce_counts n h p1 p2 p3 p4 :
  0 <= n < 8 ->
  (forall p,
     Z.testbit p n = negb (Z.testbit (KeyState h) n) ->
     Z.testbit (Counter0 (debounce p h)) n = true /\
     Z.testbit (Counter1 (debounce p h)) n = true /\
     Z.testbit (KeyState (debounce p h)) n = Z.testbit (KeyState h) n /\
     Z.testbit (KeyPress (debounce p h)) n = Z.testbit (KeyPress h) n) /\
  (Z.testbit (Counter0 h) n = true ->
   Z.testbit (Counter1 h) n = true ->
   Z.testbit p1 n = Z.testbit (KeyState h) n ->
   Z.testbit p2 n = Z.testbit (KeyState h) n ->
   Z.testbit p3 n = Z.testbit (KeyState h) n ->
   Z.testbit p4 n = Z.testbit (KeyState h) n ->
   let h1 := debounce p1 h in
   let h2 := debounce p2 h1 in
   let h3 := debounce p3 h2 in
   let h4 := debounce p4 h3 in
   (forall h', h' = h1 \/ h' = h2 \/ h' = h3 ->
      Z.testbit (KeyState h') n = Z.testbit (KeyState h) n /\
      Z.testbit (KeyPress h') n = Z.testbit (KeyPress h) n) /\
   Z.testbit (KeyState h4) n = negb (Z.testbit (KeyState h) n) /\
   Z.testbit (KeyPress h4) n =
     Z.testbit (KeyPress h) n || negb (Z.testbit (KeyState h) n) /\
   Z.testbit (Counter0 h4) n = true /\
   Z.testbit (Counter1 h4) n = true).
Proof.
  intros Hn. split.
  - intros p Hp. destruct (debounce_bit p h n Hn) as (H0 & H1 & H2 & H3).
    rewrite H0, H1, H2, H3, Hp.
    by destruct (Z.testbit (KeyState h) n), (Z.testbit (Counter0 h) n),
               (Z.testbit (Counter1 h) n), (Z.testbit (KeyPress h) n).
  - intros Hc0 Hc1 Hp1 Hp2 Hp3 Hp4 h1 h2 h3 h4.
    destruct (debounce_bit p1 h n Hn) as (A0 & A1 & A2 & A3).
    destruct (debounce_bit p2 h1 n Hn) as (B0 & B1 & B2 & B3).
    destruct (debounce_bit p3 h2 n Hn) as (C0 & C1 & C2 & C3).
    destruct (debounce_bit p4 h3 n Hn) as (D0 & D1 & D2 & D3).
    fold h1 in A0, A1, A2, A3. fold h2 in B0, B1, B2, B3.
    fold h3 in C0, C1, C2, C3. fold h4 in D0, D1, D2, D3.
    assert (E1 : Z.testbit (Counter0 h1) n = false /\ Z.testbit (Counter1 h1) n = true /\
                 Z.testbit (KeyState h1) n = Z.testbit (KeyState h) n /\
                 Z.testbit (KeyPress h1) n = Z.testbit (KeyPress h) n).
    { rewrite A0, A1, A2, A3, Hc0, Hc1, Hp1.
      by destruct (Z.testbit (KeyState h) n), (Z.testbit (KeyPress h) n). }
    destruct E1 as (E10 & E11 & E12 & E13).
    assert (E2 : Z.testbit (Counter0 h2) n = true /\ Z.testbit (Counter1 h2) n = false /\
                 Z.testbit (KeyState h2) n = Z.testbit (KeyState h) n /\
                 Z.testbit (KeyPress h2) n = Z.testbit (KeyPress h) n).
    { rewrite B0, B1, B2, B3, E10, E11, E12, E13, Hp2.
      by destruct (Z.testbit (KeyState h) n), (Z.testbit (KeyPress h) n). }
    destruct E2 as (E20 & E21 & E22 & E23).
    assert (E3 : Z.testbit (Counter0 h3) n = false /\ Z.testbit (Counter1 h3) n = false /\
                 Z.testbit (KeyState h3) n = Z.testbit (KeyState h) n /\
                 Z.testbit (KeyPress h3) n = Z.testbit (KeyPress h) n).
    { rewrite C0, C1, C2, C3, E20, E21, E22, E23, Hp3.
      by destruct (Z.testbit (KeyState h) n), (Z.testbit (KeyPress h) n). }
    destruct E3 as (E30 & E31 & E32 & E33).
    split.
    { intros h' [-> | [-> | ->]]; auto. }
    rewrite D0, D1, D2, D3, E30, E31, E32, E33, Hp4.
    by destruct (Z.testbit (KeyState h) n), (Z.testbit (KeyPress h) n).
Qed.

(** X12. Debouncing, for each of the eight keys: a sample that agrees with
    the debounced state resets the key's counter and changes neither KeyState
    nor KeyPress; starting from a reset counter, the debounced state toggles
    exactly at the fourth consecutive sample that differs from it, and at
    that moment a press (not a release) is recorded in KeyPress. *)
Theorem debounce_four_samples n h p1 p2 p3 p4 :
  0 <= n < 8 ->
  (forall p,
     Z.testbit p n = negb (Z.testbit (KeyState h) n) ->
     Z.testbit (Counter0 (debounce p h)) n = true /\
     Z.testbit (Counter1 (debounce p h)) n = true /\
     Z.testbit (KeyState (debounce p h)) n = Z.testbit (KeyState h) n /\
     Z.testbit (KeyPress (debounce p h)) n = Z.testbit (KeyPress h) n) /\
  (Z.testbit (Counter0 h) n = true ->
   Z.testbit (Counter1 h) n = true ->
   Z.testbit p1 n = Z.testbit (KeyState h) n ->
   Z.testbit p2 n = Z.testbit (KeyState h) n ->
   Z.testbit p3 n = Z.testbit (KeyState h) n ->
   Z.testbit p4 n = Z.testbit (KeyState h) n ->
   let h1 := debounce p1 h in
   let h2 := debounce p2 h1 in
   let h3 := debounce p3 h2 in
   let h4 := debounce p4 h3 in
   (forall h', h' = h1 \/ h' = h2 \/ h' = h3 ->
      Z.testbit (KeyState h') n = Z.testbit (KeyState h) n /\
      Z.testbit (KeyPress h') n = Z.testbit (KeyPress h) n) /\
   Z.testbit (KeyState h4) n = negb (Z.testbit (KeyState h) n) /\
   Z.testbit (KeyPress h4) n =
     Z.testbit (KeyPress h) n || negb (Z.testbit (KeyState h) n) /\
   Z.testbit (Counter0 h4) n = true /\
   Z.testbit (Counter1 h4) n = true).
Proof. apply debounce_counts. Qed.

Lemma debounce_four_samples_witness :
  let h4 := debounce 251 (debounce 251 (debounce 251 (debounce 251 hal_idle))) in
  Z.testbit (KeyState h4) 2 = negb (Z.testbit (KeyState hal_idle) 2) /\
  Z.testbit (KeyPress h4) 2 =
    Z.testbit (KeyPress hal_idle) 2 || negb (Z.testbit (KeyState hal_idle) 2) /\
  Z.testbit (Counter0 h4) 2 = true /\
  Z.testbit (Counter1 h4) 2 = true.
Proof.
  assert (Hn : 0 <= 2 < 8) by lia.
  apply (proj2 (proj2 (debounce_four_samples 2 hal_idle 251 251 251 251 Hn)
                  eq_refl eq_refl eq_refl eq_refl eq_refl eq_refl)).
Defined.

(** ** The potentiometer *)

(** X13. The ADC routine stores the reading in CurentADCValue and leaves the
    reference LastValue within 10 of it.  A reading within 10 of the
    reference changes neither the reference nor the kernel; a reading more
    than 10 above it becomes the new reference and posts EVENT_LEFT to the
    control task, one more than 10 below it becomes the new reference and
    posts EVENT_RIGHT.  The routine returns with interrupts enabled. *)
Theorem ISR_ADC_hysteresis ADCH h ctrl cur :
  Tasks (kernel h) !! TASK_ID_CTRL = Some ctrl ->
  Tasks (kernel h) !! CurrentTaskIndex (kernel h) = Some cur ->
  exists h',
    ISR_ADC ADCH h = Some h' /\
    CurentADCValue h' = ADCH /\
    Z.abs (ADCH - LastValue h') <= 10 /\
    SREG_I (kernel h') = true /\
    (Z.abs (ADCH - LastValue h) <= 10 ->
     LastValue h' = LastValue h /\ kernel h' = with_SREG_I true (kernel h)) /\
    (ADCH > LastValue h + 10 ->
     LastValue h' = ADCH /\
     exists c, Tasks (kernel h') !! TASK_ID_CTRL = Some c /\
               Z.land (Events c) EVENT_LEFT = EVENT_LEFT) /\
    (ADCH < LastValue h - 10 ->
     LastValue h' = ADCH /\
     exists c, Tasks (kernel h') !! TASK_ID_CTRL = Some c /\
               Z.land (Events c) EVENT_RIGHT = EVENT_RIGHT).
Proof.
  intros Hctrl Hcur. unfold ISR_ADC. simpl.
  assert (Hpost : forall ev, is_u8 ev ->
    exists k1 c, Os_SetEvent TASK_ID_CTRL ev (with_SREG_I false (kernel h)) = Some k1 /\
                 Tasks k1 !! TASK_ID_CTRL = Some c /\ Z.land (Events c) ev = ev).
  { intros ev Hev.
    destruct (Os_SetEvent_effect TASK_ID_CTRL ev (with_SREG_I false (kernel h)) ctrl cur)
      as (k1 & c & E & Hl & Hin & _); [done..|]. eauto. }
  case_decide as Hfar.
  - case_decide as Hdir.
    + destruct (Hpost EVENT_RIGHT) as (k1 & c & -> & Hl & Hin); [by unfold is_u8|].
      simpl. eexists. split; [done|]. simpl. split; [done|].
      split; [lia|]. split; [done|]. split; [lia|]. split; [lia|].
      intros _. split; [done|]. eauto.
    + destruct (Hpost EVENT_LEFT) as (k1 & c & -> & Hl & Hin); [by unfold is_u8|].
      simpl. eexists. split; [done|]. simpl. split; [done|].
      split; [lia|]. split; [done|]. split; [lia|]. split; [|lia].
      intros _. split; [done|]. eauto.
  - simpl. eexists. split; [done|]. simpl. split; [done|].
    split; [lia|]. split; [done|]. split; [|lia].
    intros _. split; [done|]. by destruct (kernel h).
Qed.

Lemma ISR_ADC_hysteresis_witness :
  exists h',
    ISR_ADC 140 hal_idle = Some h' /\
    CurentADCValue h' = 140 /\
    Z.abs (140 - LastValue h') <= 10 /\
    SREG_I (kernel h') = true /\
    (Z.abs (140 - LastValue hal_idle) <= 10 ->
     LastValue h' = LastValue hal_idle /\
     kernel h' = with_SREG_I true (kernel hal_idle)) /\
    (140 > LastValue hal_idle + 10 ->
     LastValue h' = 140 /\
     exists c, Tasks (kernel h') !! TASK_ID_CTRL = Some c /\
               Z.land (Events c) EVENT_LEFT = EVENT_LEFT) /\
    (140 < LastValue hal_idle - 10 ->
     LastValue h' = 140 /\
     exists c, Tasks (kernel h') !! TASK_ID_CTRL = Some c /\
               Z.land (Events c) EVENT_RIGHT = EVENT_RIGHT).
Proof.
  apply (ISR_ADC_hysteresis 140 hal_idle
           (mkTask 0 TASK_STATE_WAITING 0 120 32 1) (mkTask 0 TASK_STATE_RUNNING 0 0 0 0));
    reflexivity.
Defined.

(** ** The scheduler tick *)

Lemma land_bit_ne_0 b kp :
  0 <= b -> (Z.land (Z.shiftl 1 b) kp <> 0 <-> Z.testbit kp b = true).
Proof.
  intros Hb. split.
  - intros Hne. destruct (Z.testbit kp b) eqn:Hk; [done|]. exfalso. apply Hne.
    apply Z.bits_inj'; intros n Hn.
    rewrite Z.land_spec, Z.shiftl_1_l, Z.pow2_bits_eqb, Z.bits_0 by done.
    destruct (Z.eqb_spec b n) as [->|]; [by rewrite Hk|done].
  - intros Hk Hz. apply (f_equal (fun z => Z.testbit z b)) in Hz.
    rewrite Z.land_spec, Z.shiftl_1_l, Z.pow2_bits_eqb, Z.bits_0, Hk, Z.eqb_refl in Hz
      by done.
    discriminate.
Qed.

Lemma events_kept e m ev :
  is_u8 ev -> Z.land e ev = ev -> Z.land (wrap8 (Z.lor e m)) ev = ev.
Proof.
  intros Hev Hin. apply Z.bits_inj'; intros n Hn.
  apply (f_equal (fun z => Z.testbit z n)) in Hin. rewrite Z.land_spec in Hin.
  rewrite wrap8_land, !Z.land_spec, Z.lor_spec, testbit_255 by done.
  destruct (Z.ltb_spec n 8).
  - destruct (Z.testbit e n), (Z.testbit m n), (Z.testbit ev n); simpl in *; congruence.
  - rewrite (is_u8_testbit ev n Hev) by lia. by rewrite !andb_false_r.
Qed.

(** Os_SetEvent within the table: what the ISR proofs need of it. *)
Lemma Os_SetEvent_in_table TaskId Mask k t :
  is_u8 Mask ->
  Tasks k !! TaskId = Some t ->
  (CurrentTaskIndex k < length (Tasks k))%nat ->
  exists k' t',
    Os_SetEvent TaskId Mask k = Some k' /\
    Tasks k' !! TaskId = Some t' /\
    Events t' = wrap8 (Z.lor (Events t) Mask) /\
    length (Tasks k') = length (Tasks k) /\
    CurrentTaskIndex k' = CurrentTaskIndex k /\
    SREG_I k' = SREG_I k.
Proof.
  intros Hm Ht Hc. destruct (lookup_lt_is_Some_2 _ _ Hc) as [cur Hcur].
  destruct (Os_SetEvent_effect TaskId Mask k t cur Hm Ht Hcur)
    as (k' & t' & E & Hl & _).
  pose proof (Os_SetEvent_frame _ _ _ _ E) as (HT & _ & _ & _ & Hci & _ & HI).
  exists k', t'. repeat (split; [done|]).
  split; [|by rewrite HT, length_alter].
  rewrite HT, list_lookup_alter_eq, Ht in Hl. simpl in Hl. injection Hl as <-.
  apply deliver_fields.
Qed.

(** What one run of the Timer1 routine does. *)
Lemma ISR_TIMER1_OVF_effect h ctrl :
  well_formed (kernel h) ->
  is_u8 (KeyPress h) ->
  Tasks (kernel h) !! TASK_ID_CTRL = Some ctrl ->
  exists h' k1,
    Os_Scheduler (with_TCNT1 60 176 (with_SREG_I false (kernel h))) = Some k1 /\
    ISR_TIMER1_OVF h = Some h' /\
    KeyPress h' = Z.land (KeyPress h) (Z.lnot 12) /\
    SREG_I (kernel h') = true /\
    (Z.testbit (KeyPress h) 2 = false -> Z.testbit (KeyPress h) 3 = false ->
     kernel h' = with_SREG_I true k1 /\ ~ force_raised (kernel h')) /\
    (Z.testbit (KeyPress h) 2 = true ->
     exists c, Tasks (kernel h') !! TASK_ID_CTRL = Some c /\
               Z.land (Events c) EVENT_ROTATE = EVENT_ROTATE) /\
    (Z.testbit (KeyPress h) 3 = true ->
     exists c, Tasks (kernel h') !! TASK_ID_CTRL = Some c /\
               Z.land (Events c) EVENT_DROP = EVENT_DROP).
Proof.
  intros Hwf Hkp Hctrl.
  set (k0 := with_TCNT1 60 176 (with_SREG_I false (kernel h))).
  assert (Hwf0 : well_formed k0) by (by destruct Hwf).
  destruct (Os_Scheduler_total k0 Hwf0) as [k1 E1].
  pose proof (exec_configuration OpSchedule k0 k1 E1) as (HI1 & _ & HT1 & _).
  pose proof (exec_current_in_range OpSchedule k0 k1 E1 (proj2 Hwf0)) as Hc1.
  apply Forall2_length in HT1.
  assert (is_Some (Tasks k1 !! TASK_ID_CTRL)) as [c1 Hl1].
  { apply lookup_lt_is_Some. rewrite <- HT1. simpl. by eapply lookup_lt_Some. }
  assert (Hk1 : TCNT1H k1 = 60 /\ TCNT1L k1 = 176).
  { destruct (Os_Scheduler_inv k0 k1 E1) as (? & ? & ? & _ & _ & _ & Hc).
    by destruct Hc as [(_ & ->) | [(_ & _ & ->) | (_ & _ & ->)]]. }
  unfold ISR_TIMER1_OVF. fold k0. rewrite E1.
  cbn -[KeyPressed _BV Os_SetEvent Z.testbit Z.land Z.lnot].
  rewrite (KeyPressed_eq (_BV BUTTON_ROTATE) h) by (done || by unfold is_u8).
  set (h1 := with_KeyPress _ h).
  assert (Hkp1 : is_u8 (KeyPress h1)) by (by apply is_u8_land_l).
  rewrite (KeyPressed_eq (_BV BUTTON_DROP) h1) by (done || by unfold is_u8).
  assert (Hrot : Z.land (_BV BUTTON_ROTATE) (KeyPress h) <> 0 <->
                 Z.testbit (KeyPress h) 2 = true) by (by apply land_bit_ne_0).
  assert (Hdrop : Z.land (_BV BUTTON_DROP) (KeyPress h1) <> 0 <->
                  Z.testbit (KeyPress h) 3 = true).
  { etrans; [by apply land_bit_ne_0|]. unfold h1, BUTTON_DROP, PD3.
    cbn [KeyPress with_KeyPress].
    rewrite Z.land_spec, Z.lnot_spec by done.
    change (Z.testbit (_BV BUTTON_ROTATE) 3) with false.
    by destruct (Z.testbit (KeyPress h) 3). }
  assert (Hkp2 : Z.land (KeyPress h1) (Z.lnot (_BV BUTTON_DROP))
                 = Z.land (KeyPress h) (Z.lnot 12)).
  { unfold h1. cbn [KeyPress with_KeyPress]. apply Z.bits_inj'; intros n Hn.
    rewrite !Z.land_spec, !Z.lnot_spec by done.
    change 12 with (Z.lor (_BV BUTTON_ROTATE) (_BV BUTTON_DROP)).
    rewrite Z.lor_spec.
    by destruct (Z.testbit (KeyPress h) n), (Z.testbit (_BV BUTTON_ROTATE) n),
               (Z.testbit (_BV BUTTON_DROP) n). }
  exists (with_kernel
            (with_SREG_I true
               (default k1
                  (k2 ← (if decide (Z.land (_BV BUTTON_ROTATE) (KeyPress h) <> 0)
                         then Os_SetEvent TASK_ID_CTRL EVENT_ROTATE k1 else Some k1);
                   if decide (Z.land (_BV BUTTON_DROP) (KeyPress h1) <> 0)
                   then Os_SetEvent TASK_ID_CTRL EVENT_DROP k2 else Some k2)))
            (with_KeyPress (Z.land (KeyPress h1) (Z.lnot (_BV BUTTON_DROP))) h1)), k1.
  split; [done|].
  destruct (Os_SetEvent_in_table TASK_ID_CTRL EVENT_ROTATE k1 c1)
    as (k2 & c2 & E2 & Hl2 & Hev2 & Hlen2 & Hci2 & _); [by unfold is_u8|done|done|].
  assert (Hc2 : (CurrentTaskIndex k2 < length (Tasks k2))%nat) by congruence.
  destruct (Os_SetEvent_in_table TASK_ID_CTRL EVENT_DROP k2 c2)
    as (k3 & c3 & E3 & Hl3 & Hev3 & _); [by unfold is_u8|done|done|].
  destruct (Os_SetEvent_in_table TASK_ID_CTRL EVENT_DROP k1 c1)
    as (k3' & c3' & E3' & Hl3' & Hev3' & _); [by unfold is_u8|done|done|].
  destruct (decide (Z.land (_BV BUTTON_ROTATE) (KeyPress h) <> 0)) as [Hr|Hr];
    destruct (decide (Z.land (_BV BUTTON_DROP) (KeyPress h1) <> 0)) as [Hd|Hd];
    rewrite ?E2; cbn -[Os_SetEvent Z.testbit Z.land Z.lnot _BV];
    rewrite ?E3, ?E3'; cbn -[Os_SetEvent Z.testbit Z.land Z.lnot _BV];
        (split; [done|]); (split; [done|]); (split; [done|]).
  - split; [intros Hf; apply Hrot in Hr; congruence|]. split; intros _.
    + exists c3. split; [done|]. rewrite Hev3. apply events_kept; [done|].
      rewrite Hev2. by apply wrap8_lor_has.
    + exists c3. split; [done|]. rewrite Hev3. by apply wrap8_lor_has.
  - split; [intros Hf; apply Hrot in Hr; congruence|]. split.
    + intros _. exists c2. split; [done|]. rewrite Hev2. by apply wrap8_lor_has.
    + intros Ht. apply Hdrop in Ht. done.
  - split; [intros _ Hf; apply Hdrop in Hd; congruence|]. split.
    + intros Ht. apply Hrot in Ht. done.
    + intros _. exists c3'. split; [done|]. rewrite Hev3'. by apply wrap8_lor_has.
  - split.
    + intros _ _. split; [done|]. intros [Hh _]. simpl in Hh.
      destruct Hk1 as [Hk1 _]. rewrite Hk1 in Hh. discriminate.
    + split; intros Ht; [apply Hrot in Ht|apply Hdrop in Ht]; done.
Qed.

(** X14. The Timer1 routine reloads the timer, runs the scheduler, and
    reports the debounced presses of the rotate and drop keys to the control
    task, erasing them from KeyPress.  With neither press pending nothing but
    the scheduler has acted on the kernel and the forced-reschedule signal is
    down; a pending press leaves its event set at the control task.  The
    routine returns with interrupts enabled. *)
Theorem ISR_TIMER1_OVF_serves h ctrl :
  well_formed (kernel h) ->
  is_u8 (KeyPress h) ->
  Tasks (kernel h) !! TASK_ID_CTRL = Some ctrl ->
  exists h' k1,
    Os_Scheduler (with_TCNT1 60 176 (with_SREG_I false (kernel h))) = Some k1 /\
    ISR_TIMER1_OVF h = Some h' /\
    KeyPress h' = Z.land (KeyPress h) (Z.lnot 12) /\
    SREG_I (kernel h') = true /\
    (Z.testbit (KeyPress h) 2 = false -> Z.testbit (KeyPress h) 3 = false ->
     kernel h' = with_SREG_I true k1 /\ ~ force_raised (kernel h')) /\
    (Z.testbit (KeyPress h) 2 = true ->
     exists c, Tasks (kernel h') !! TASK_ID_CTRL = Some c /\
               Z.land (Events c) EVENT_ROTATE = EVENT_ROTATE) /\
    (Z.testbit (KeyPress h) 3 = true ->
     exists c, Tasks (kernel h') !! TASK_ID_CTRL = Some c /\
               Z.land (Events c) EVENT_DROP = EVENT_DROP).
Proof. apply ISR_TIMER1_OVF_effect. Qed.

Lemma ISR_TIMER1_OVF_serves_witness :
  exists h' k1,
    Os_Scheduler (with_TCNT1 60 176 (with_SREG_I false (kernel (with_KeyPress 4 hal_idle))))
      = Some k1 /\
    ISR_TIMER1_OVF (with_KeyPress 4 hal_idle) = Some h' /\
    KeyPress h' = Z.land (KeyPress (with_KeyPress 4 hal_idle)) (Z.lnot 12) /\
    SREG_I (kernel h') = true /\
    (Z.testbit (KeyPress (with_KeyPress 4 hal_idle)) 2 = false ->
     Z.testbit (KeyPress (with_KeyPress 4 hal_idle)) 3 = false ->
     kernel h' = with_SREG_I true k1 /\ ~ force_raised (kernel h')) /\
    (Z.testbit (KeyPress (with_KeyPress 4 hal_idle)) 2 = true ->
     exists c, Tasks (kernel h') !! TASK_ID_CTRL = Some c /\
               Z.land (Events c) EVENT_ROTATE = EVENT_ROTATE) /\
    (Z.testbit (KeyPress (with_KeyPress 4 hal_idle)) 3 = true ->
     exists c, Tasks (kernel h') !! TASK_ID_CTRL = Some c /\
               Z.land (Events c) EVENT_DROP = EVENT_DROP).
Proof.
  apply (ISR_TIMER1_OVF_serves (with_KeyPress 4 hal_idle)
           (mkTask 0 TASK_STATE_WAITING 0 120 32 1)).
  - split; [reflexivity | simpl; lia].
  - unfold is_u8. simpl. lia.
  - reflexivity.
Defined.

(** ** From the key to the control task *)

Lemma Os_TickTimer_in_tables k :
  hal_tables k ->
  exists k', Os_TickTimer TIMER_ID_GAME k = Some k' /\ hal_tables k' /\
             SREG_I k' = SREG_I k.
Proof.
  intros ([Hn Hc] & Hctrl & tm & Htm & Hown).
  assert (Hdef : exists k', Os_TickTimer TIMER_ID_GAME k = Some k').
  { rewrite Os_TickTimer_eq, Htm. simpl.
    case_decide; [|by eexists]. case_decide; [|by eexists].
    destruct (lookup_lt_is_Some_2 _ _ Hown) as [owner Ho].
    destruct (lookup_lt_is_Some_2 _ _ Hc) as [cur Hcur].
    rewrite Os_SetEvent_eq. simpl. rewrite Ho. simpl.
    case_decide; [|by eexists]. rewrite Hcur. simpl. by eexists. }
  destruct Hdef as [k' E]. exists k'. split; [done|].
  pose proof (exec_configuration (OpTickTimer TIMER_ID_GAME) k k' E)
    as (HI & HN & HT & HM).
  pose proof (exec_current_in_range (OpTickTimer TIMER_ID_GAME) k k' E Hc) as Hc'.
  pose proof (Forall2_length _ _ _ HT) as Hlen.
  split; [|done]. split; [split; [congruence|done]|].
  split; [by rewrite <- Hlen|].
  destruct (Forall2_lookup_l _ _ _ _ _ HM Htm) as (tm' & Htm' & Hid & _).
  exists tm'. split; [done|]. rewrite Hid, <- Hlen. done.
Qed.

Lemma hal_tables_SREG_I b k : hal_tables k -> hal_tables (with_SREG_I b k).
Proof. by intros H. Qed.

Lemma ISR_TIMER2_OVF_in_tables PIND h :
  hal_tables (kernel h) ->
  exists k', ISR_TIMER2_OVF PIND h = Some (with_kernel k' (debounce PIND h)) /\
             hal_tables k'.
Proof.
  intros Hok. unfold ISR_TIMER2_OVF.
  destruct (Os_TickTimer_in_tables (with_SREG_I false (kernel h)))
    as (k' & -> & Hok' & _); [by apply hal_tables_SREG_I|].
  simpl. exists (with_SREG_I true k'). split; [done|]. by apply hal_tables_SREG_I.
Qed.

Lemma debounce_with_kernel PIND k h :
  debounce PIND (with_kernel k h) = with_kernel k (debounce PIND h).
Proof. done. Qed.

(** X15. From the key to the task: with the counter of the rotate key reset
    and the key debounced as released, four consecutive Timer2 interrupts
    that sample the key down (port bit 2 low) are followed by a Timer1
    interrupt that sets EVENT_ROTATE at the control task and erases the
    recorded press. *)
Theorem rotate_key_reaches_ctrl h p1 p2 p3 p4 :
  hal_tables (kernel h) ->
  Z.testbit (Counter0 h) 2 = true ->
  Z.testbit (Counter1 h) 2 = true ->
  Z.testbit (KeyState h) 2 = false ->
  Z.testbit p1 2 = false -> Z.testbit p2 2 = false ->
  Z.testbit p3 2 = false -> Z.testbit p4 2 = false ->
  exists h1 h2 h3 h4 h5 c,
    ISR_TIMER2_OVF p1 h = Some h1 /\
    ISR_TIMER2_OVF p2 h1 = Some h2 /\
    ISR_TIMER2_OVF p3 h2 = Some h3 /\
    ISR_TIMER2_OVF p4 h3 = Some h4 /\
    Z.testbit (KeyPress h3) 2 = Z.testbit (KeyPress h) 2 /\
    Z.testbit (KeyPress h4) 2 = true /\
    ISR_TIMER1_OVF h4 = Some h5 /\
    Tasks (kernel h5) !! TASK_ID_CTRL = Some c /\
    Z.land (Events c) EVENT_ROTATE = EVENT_ROTATE /\
    Z.testbit (KeyPress h5) 2 = false.
Proof.
  intros Hok Hc0 Hc1 Hks Hp1 Hp2 Hp3 Hp4.
  destruct (ISR_TIMER2_OVF_in_tables p1 h Hok) as (k1 & E1 & Hok1).
  set (h1 := with_kernel k1 (debounce p1 h)) in *.
  destruct (ISR_TIMER2_OVF_in_tables p2 h1 Hok1) as (k2 & E2 & Hok2).
  set (h2 := with_kernel k2 (debounce p2 h1)) in *.
  destruct (ISR_TIMER2_OVF_in_tables p3 h2 Hok2) as (k3 & E3 & Hok3).
  set (h3 := with_kernel k3 (debounce p3 h2)) in *.
  destruct (ISR_TIMER2_OVF_in_tables p4 h3 Hok3) as (k4 & E4 & Hok4).
  set (h4 := with_kernel k4 (debounce p4 h3)) in *.
  assert (Hn : 0 <= 2 < 8) by lia.
  destruct (debounce_counts 2 h p1 p2 p3 p4 Hn) as [_ Hfour].
  rewrite Hks in Hfour.
  destruct (Hfour Hc0 Hc1 Hp1 Hp2 Hp3 Hp4) as (Hearly & _ & Hkp4 & _).
  destruct (Hearly (debounce p3 (debounce p2 (debounce p1 h)))) as [_ Hkp3];
    [by right; right|].
  destruct Hok4 as (Hwf4 & Hctrl4 & _).
  destruct (lookup_lt_is_Some_2 _ _ Hctrl4) as [ctrl Hctrl].
  assert (Hu4 : is_u8 (KeyPress h4)) by apply is_u8_wrap8.
  destruct (ISR_TIMER1_OVF_effect h4 ctrl Hwf4 Hu4 Hctrl)
    as (h5 & ks & _ & E5 & Hkp5 & _ & _ & Hrot & _).
  assert (Hb4 : Z.testbit (KeyPress h4) 2 = true).
  { change (Z.testbit (KeyPress (debounce p4 (debounce p3 (debounce p2 (debounce p1 h))))) 2
            = true).
    rewrite Hkp4. apply orb_true_r. }
  destruct (Hrot Hb4) as (c & Hc & Hev).
  exists h1, h2, h3, h4, h5, c.
  split; [exact E1|]. split; [exact E2|]. split; [exact E3|]. split; [exact E4|].
  split; [exact Hkp3|]. split; [exact Hb4|]. split; [exact E5|].
  split; [exact Hc|]. split; [exact Hev|].
  rewrite Hkp5, Z.land_spec, Z.lnot_spec by lia. apply andb_false_r.
Qed.

Lemma rotate_key_reaches_ctrl_witness :
  exists h1 h2 h3 h4 h5 c,
    ISR_TIMER2_OVF 251 hal_idle = Some h1 /\
    ISR_TIMER2_OVF 251 h1 = Some h2 /\
    ISR_TIMER2_OVF 251 h2 = Some h3 /\
    ISR_TIMER2_OVF 251 h3 = Some h4 /\
    Z.testbit (KeyPress h3) 2 = Z.testbit (KeyPress hal_idle) 2 /\
    Z.testbit (KeyPress h4) 2 = true /\
    ISR_TIMER1_OVF h4 = Some h5 /\
    Tasks (kernel h5) !! TASK_ID_CTRL = Some c /\
    Z.land (Events c) EVENT_ROTATE = EVENT_ROTATE /\
    Z.testbit (KeyPress h5) 2 = false.
Proof.
  apply (rotate_key_reaches_ctrl hal_idle 251 251 251 251); try reflexivity.
  split; [split; [reflexivity | simpl; lia]|].
  split; [simpl; unfold TASK_ID_CTRL; lia|].
  exists (mkTimer 0 1 1). split; [reflexivity | simpl; lia].
Defined.
